(** * lib/api.py: retry-wrapped provider calls and batch embedding retrieval

    A shallow embedding of [src/lib/api.py].  The module talks to two
    provider SDKs (openai, google.generativeai) and wraps its calls with
    tenacity's [@retry].  Provider answers are taken from an environment
    of oracles; every call, log line and backoff sleep is recorded in a
    trace, so that statements can speak about what was sent to the
    provider and how often. *)

From stdpp Require Import gmap strings list fin_maps.
From Stdlib Require Import QArith.QArith_base QArith.Qminmax Lqa HexString.

Local Open Scope string_scope.
Local Open Scope nat_scope.
Local Open Scope list_scope.
Set Warnings "-register-all".

(** ** Python values that travel in a conversation

    A message is a Python dict such as [{"role": "user", "content": "hi"}];
    [system_message] is annotated [dict | str], so the content of a message
    is either text or again a dict.  A dict literal is kept as its items, in
    the order in which the literal lists them. *)

Inductive pyval : Type :=
| PStr (s : string)
| PDict (items : list (string * pyval)).

(** The first parameter of [get_openai_response_chat] is annotated
    [List[dict] | str]; [isinstance(messages, str)] tells the two apart. *)
Inductive chat_input : Type :=
| Prompt (text : string)
| Conversation (messages : list pyval).

(** ** Exceptions *)

(** An exception raised from inside a provider SDK call: its class name and
    the text [str(e)] gives for it. *)
Record sdk_exception : Type := SdkException {
  exc_class : string;
  exc_str : string
}.

(** The key a dict lookup missed: a text, or a Future (by its number). *)
Inductive pykey : Type :=
| KText (text : string)
| KFuture (future : nat).

(** [APIError] and [OpenAIError] are the classes of api.py; [RetryError] is
    tenacity's, and holds the last attempt (a Future: its attempt number, its
    identity as an object, and the exception the attempt ended with).
    [IndexError] and [KeyError] are what Python's indexing raises. *)
Inductive exn : Type :=
| SdkError (e : sdk_exception)
| IndexError (msg : string)
| KeyError (key : pykey)
| OpenAIError (msg : string)
| APIError (msg : string)
| RetryError (attempt_number : nat) (future_id : N) (last : exn).

Definition class_name (e : exn) : string :=
  match e with
  | SdkError e => exc_class e
  | IndexError _ => "IndexError"
  | KeyError _ => "KeyError"
  | OpenAIError _ => "OpenAIError"
  | APIError _ => "APIError"
  | RetryError _ _ _ => "RetryError"
  end.

(** [APIError] is the base class of the module's typed errors and
    [OpenAIError] derives from it; nothing else does. *)
Definition is_APIError (e : exn) : bool :=
  match e with
  | APIError _ | OpenAIError _ => true
  | _ => false
  end.

(** [str(e)] for a [RetryError e]: tenacity's [RetryError.__str__] is
    [f"{self.__class__.__name__}[{self.last_attempt}]"], and the last attempt
    prints as a finished Future,
    ['<%s at %#x state=%s raised %s>' % ("Future", id(self), "finished", class of the exception)]. *)
Definition str_RetryError (future_id : N) (last : exn) : string :=
  "RetryError[<Future at " +:+ HexString.of_N future_id
    +:+ " state=finished raised " +:+ class_name last +:+ ">]".

(** ** Requests *)

(** The members of the SDK's two enums, [safety_types.HarmCategory] and
    [safety_types.HarmBlockThreshold]; api.py names six of the categories and
    one of the thresholds. *)
Inductive HarmCategory : Type :=
| HARM_CATEGORY_UNSPECIFIED
| HARM_CATEGORY_DEROGATORY
| HARM_CATEGORY_TOXICITY
| HARM_CATEGORY_VIOLENCE
| HARM_CATEGORY_SEXUAL
| HARM_CATEGORY_MEDICAL
| HARM_CATEGORY_DANGEROUS
| HARM_CATEGORY_HARASSMENT
| HARM_CATEGORY_HATE_SPEECH
| HARM_CATEGORY_SEXUALLY_EXPLICIT
| HARM_CATEGORY_DANGEROUS_CONTENT.

Inductive HarmBlockThreshold : Type :=
| HARM_BLOCK_THRESHOLD_UNSPECIFIED
| BLOCK_LOW_AND_ABOVE
| BLOCK_MEDIUM_AND_ABOVE
| BLOCK_ONLY_HIGH
| BLOCK_NONE.

(** One constructor per SDK entry point that api.py calls, with the keyword
    arguments of the call. *)
Inductive request : Type :=
| ChatCompletion_create (model : string) (messages : list pyval)
    (request_timeout : nat) (max_tokens : nat) (temperature : Q) (n : nat)
| Embedding_create (input : list string) (model : string)
| generate_embeddings (model : string) (text : string)
| generate_text (model : string) (prompt : string) (temperature : Q)
    (max_output_tokens : nat) (safety_settings : list (HarmCategory * HarmBlockThreshold)).

(** ** Configuration

    The [settings] module is imported by api.py and is not part of it; its
    values are parameters of the development. *)
Record Settings : Type := {
  API_RETRY_ATTEMPTS : nat;
  OPENAI_REQUEST_TIMEOUT : nat;
  OPEN_AI_MODEL : string;
  OPENAI_EMBEDDING_MODEL : string;
  PALM_EMBEDDING_MODEL : string;
  PALM_MODEL : string;
  MAX_WORKERS : positive
}.

(** ** The outside world

    What a thread of the program observes from outside: the answer of each SDK
    entry point to its [k]-th call of the thread (counting from 0), and the
    identity Python gives to the Future object of an attempt.  A chat completion
    answers with the [message.content] of its choices, an OpenAI embedding call
    with the [embedding] of the entries of its [data] list.  [row] is whatever
    the provider hands back as one embedding; api.py never looks inside it. *)
Record Env (row : Type) : Type := {
  openai_ChatCompletion_create : nat → request → sdk_exception + list (option string);
  openai_Embedding_create : nat → request → sdk_exception + list row;
  palm_generate_embeddings : nat → request → sdk_exception + row;
  palm_generate_text : nat → request → sdk_exception + option string;
  id_Future : nat → N
}.
Global Arguments openai_ChatCompletion_create {row} _ _ _.
Global Arguments openai_Embedding_create {row} _ _ _.
Global Arguments palm_generate_embeddings {row} _ _ _.
Global Arguments palm_generate_text {row} _ _ _.
Global Arguments id_Future {row} _ _.

(** ** Traces *)

(** tenacity's [wait_random_exponential(min=.., max=..)] (multiplier 1, base
    2).  The policy and the attempt it follows are recorded for a sleep; the
    number of seconds tenacity then draws is [wait_seconds] below, a function
    of the two and of the draw of Python's random generator. *)
Record wait_random_exponential : Type := WaitRandomExponential {
  wait_min : nat;
  wait_max : nat
}.

Inductive log_level : Type := ERROR | INFO.

(** A log line is a literal prefix followed by either text or the message
    list that [str(messages)] prints. *)
Inductive log_payload : Type :=
| LogText (s : string)
| LogMessages (messages : list pyval).

Inductive event : Type :=
| Called (r : request)
| Logged (level : log_level) (prefix : string) (payload : log_payload)
| Slept (wait : wait_random_exponential) (attempt_number : nat).

(** The trace of a thread, newest event first. *)
Definition world : Type := list event.

(** The requests sent so far, newest first. *)
Fixpoint requests (w : world) : list request :=
  match w with
  | [] => []
  | Called r :: w => r :: requests w
  | _ :: w => requests w
  end.

Definition calls_made (w : world) : nat := length (requests w).

(** The backoff sleeps so far, newest first. *)
Fixpoint sleeps (w : world) : list (wait_random_exponential * nat) :=
  match w with
  | [] => []
  | Slept p a :: w => (p, a) :: sleeps w
  | _ :: w => sleeps w
  end.

(** ** Computations: a trace is threaded through, and a computation ends
    with a value or with a raised exception. *)

Definition M (A : Type) : Type := world → (exn + A) * world.

Definition ret {A} (a : A) : M A := λ w, (inr a, w).
Definition raise {A} (e : exn) : M A := λ w, (inl e, w).
Definition bind {A B} (c : M A) (k : A → M B) : M B := λ w,
  match c w with
  | (inr a, w1) => k a w1
  | (inl e, w1) => (inl e, w1)
  end.

Notation "x ←← c ;; k" := (bind c (λ x, k))
  (at level 100, c at next level, right associativity).
Notation "c ;;; k" := (bind c (λ _, k))
  (at level 100, right associativity).

(** A call into the SDK: the request is recorded, and the answer (an
    exception of the SDK, or a reply) is handed to the caller, who decides
    whether it is caught. *)
Definition sdk_call {R} (oracle : nat → request → sdk_exception + R) (r : request)
  : M (sdk_exception + R) :=
  λ w, (inr (oracle (calls_made w) r), Called r :: w).

Definition logger (level : log_level) (prefix : string) (p : log_payload) : M unit :=
  λ w, (inr tt, Logged level prefix p :: w).

(** ** tenacity's [@retry(wait=..., stop=stop_after_attempt(n))] *)

(** [stop_after_attempt(n)] stops when [attempt_number >= n]. *)
Definition stop_after_attempt (max_attempt_number attempt_number : nat) : bool :=
  bool_decide (max_attempt_number ≤ attempt_number).

(** The retry loop.  Attempts are numbered from 1.  The wrapped function is
    run; a value is returned as it is.  When it raises (any [Exception] is
    retried), the stop condition is asked: if it holds, [RetryError] is raised
    with the last attempt inside ([reraise] is off by default); if not, the
    loop sleeps for the wait the policy draws and runs the next attempt.
    [left] is [max_attempt_number - attempt_number], the measure on which the
    loop ends: it is 0 exactly when [stop_after_attempt] answers yes
    (lemma [stop_after_attempt_left]). *)
Fixpoint retrying {A} (id_of : nat → N) (wait : wait_random_exponential)
    (fn : M A) (left attempt_number : nat) : M A := λ w,
  match fn w with
  | (inr v, w1) => (inr v, w1)
  | (inl e, w1) =>
      match left with
      | 0 => (inl (RetryError attempt_number (id_of attempt_number) e), w1)
      | S left' =>
          retrying id_of wait fn left' (S attempt_number)
            (Slept wait attempt_number :: w1)
      end
  end.

Definition retry {A} (id_of : nat → N) (wait : wait_random_exponential)
    (max_attempt_number : nat) (fn : M A) : M A :=
  retrying id_of wait fn (max_attempt_number - 1) 1.

(** ** The completion path *)

Section Api.
Context {row : Type}.
Variable settings : Settings.
Variable env : Env row.

(** The body of [get_openai_response], before [@retry] wraps it. *)
Definition get_openai_response_wrapped (messages : list pyval) (model : string)
  : M (option string) :=
  r ←← sdk_call (openai_ChatCompletion_create env)
        (ChatCompletion_create model messages
           (OPENAI_REQUEST_TIMEOUT settings) 2000 0 1) ;;
  match r with
  | inl e =>
      logger ERROR "OpenAI API Error: " (LogText (exc_str e)) ;;;
      logger INFO "Messages: " (LogMessages messages) ;;;
      raise (OpenAIError (exc_str e))
  | inr choices =>
      (* chat_completion.choices[0].message.content *)
      match choices with
      | [] => raise (IndexError "list index out of range")
      | choice :: _ => ret choice
      end
  end.

Definition get_openai_response (messages : list pyval) (model : string)
  : M (option string) :=
  retry (id_Future env) (WaitRandomExponential 1 60)
    (API_RETRY_ATTEMPTS settings)
    (get_openai_response_wrapped messages model).

(** The conversation [get_openai_response_chat] builds before it calls
    [get_openai_response]: lines 80 to 85 of api.py. *)
Definition conversation (messages : chat_input) (system_message : pyval) : list pyval :=
  let system_message := PDict [("role", PStr "system"); ("content", system_message)] in
  match messages with
  | Prompt text => [system_message; PDict [("role", PStr "user"); ("content", PStr text)]]
  | Conversation messages => [system_message] ++ messages
  end.

Definition get_openai_response_chat (messages : chat_input) (model : string)
    (system_message : pyval) : M (option string) := λ w,
  let messages := conversation messages system_message in
  match get_openai_response messages model w with
  | (inl (RetryError _ fid last), w1) =>
      (* except RetryError as e *)
      (logger ERROR "API Retry Error: " (LogText (str_RetryError fid last)) ;;;
       raise (APIError (str_RetryError fid last))) w1
  | res => res
  end.

Definition default_system_message : pyval := PStr "You are an expert taxonomy creator.".

(** ** The legacy text-generation call *)

Definition safety_settings : list (HarmCategory * HarmBlockThreshold) :=
  map (λ category, (category, BLOCK_NONE))
    [HARM_CATEGORY_DEROGATORY; HARM_CATEGORY_TOXICITY; HARM_CATEGORY_SEXUAL;
     HARM_CATEGORY_VIOLENCE; HARM_CATEGORY_DANGEROUS; HARM_CATEGORY_MEDICAL].

Definition get_palm_response_wrapped (prompt : string) (model : string)
  : M (option string) :=
  r ←← sdk_call (palm_generate_text env)
        (generate_text model prompt 0 1024 safety_settings) ;;
  match r with
  | inl e => raise (SdkError e)
  | inr result => ret result
  end.

Definition get_palm_response (prompt : string) (model : string) : M (option string) :=
  retry (id_Future env) (WaitRandomExponential 1 60)
    (API_RETRY_ATTEMPTS settings)
    (get_palm_response_wrapped prompt model).

End Api.

(** ** Batch embedding retrieval *)

Section Embeddings.
Context {row : Type}.

(** [get_single_embedding] of [get_openai_embeddings]; [np.asarray] of one
    embedding keeps it as it is. *)
Definition openai_get_single_embedding (env : Env row) (text model : string) : M row :=
  retry (id_Future env) (WaitRandomExponential 1 20) 6
    (r ←← sdk_call (openai_Embedding_create env) (Embedding_create [text] model) ;;
     match r with
     | inl e => raise (SdkError e)
     | inr data =>
         (* ...['data'][0]['embedding'] *)
         match data with
         | [] => raise (IndexError "list index out of range")
         | d :: _ => ret d
         end
     end).

(** [get_single_embedding] of [get_palm_embeddings]. *)
Definition palm_get_single_embedding (env : Env row) (text model : string) : M row :=
  retry (id_Future env) (WaitRandomExponential 1 20) 6
    (r ←← sdk_call (palm_generate_embeddings env) (generate_embeddings model text) ;;
     match r with
     | inl e => raise (SdkError e)
     | inr d => ret d
     end).

(** The worker pool.  [executor.submit(get_single_embedding, text, model)]
    for the [i]-th text creates the future number [i]; its task runs on a
    worker thread, which sees the outside world as [task_env i] and has a
    trace of its own.  [future.result()] is what the task returned, or
    raises what it raised. *)
Variable task_env : nat → Env row.

Definition future_result (get_single_embedding : Env row → string → string → M row)
    (model : string) (future : nat) (text : string) : exn + row :=
  (get_single_embedding (task_env future) text model []).1.

(** The dict [futures]: one entry per submitted future, whatever the texts. *)
Definition submit_all (texts : list string) : gmap nat string := map_seq 0 texts.

(** The loop over [as_completed(futures)], which yields the futures in the
    order [completed] in which they finish:
    [embeddings_lookup[futures[future]] = future.result()]. *)
Fixpoint collect (result : nat → string → exn + row) (futures : gmap nat string)
    (completed : list nat) (embeddings_lookup : gmap string row)
  : exn + gmap string row :=
  match completed with
  | [] => inr embeddings_lookup
  | future :: completed =>
      match futures !! future with
      | None => inl (KeyError (KFuture future))
      | Some text =>
          match result future text with
          | inl e => inl e
          | inr embedding =>
              collect result futures completed (<[text := embedding]> embeddings_lookup)
          end
      end
  end.

(** [[embeddings_lookup[text] for text in texts]]; the [np.asarray] around
    it stacks the rows in this order. *)
Fixpoint rows_of (embeddings_lookup : gmap string row) (texts : list string)
  : exn + list row :=
  match texts with
  | [] => inr []
  | text :: texts =>
      match embeddings_lookup !! text with
      | None => inl (KeyError (KText text))
      | Some embedding =>
          match rows_of embeddings_lookup texts with
          | inl e => inl e
          | inr rows => inr (embedding :: rows)
          end
      end
  end.

(** Lines 106 to 114 (and 128 to 136) of api.py.  [n_jobs] bounds how many
    tasks run at a time; it is a positive number here, the sizes for which
    [ThreadPoolExecutor] builds a pool (for others it raises [ValueError]
    before any fetch).  What the pool leaves open, the order of completion,
    is the argument [completed].  The rows are kept as the list that the last
    line hands to [np.asarray], which stacks rows of one shape in this order
    (and raises [ValueError] for rows of unequal length, which a provider
    with embeddings of a fixed dimension does not produce).  The [tqdm]
    progress bar around the loop shows progress and has no part in the
    result. *)
Definition gather (get_single_embedding : Env row → string → string → M row)
    (texts : list string) (model : string) (n_jobs : positive)
    (completed : list nat) : exn + list row :=
  let futures := submit_all texts in
  match collect (future_result get_single_embedding model) futures completed ∅ with
  | inl e => inl e
  | inr embeddings_lookup => rows_of embeddings_lookup texts
  end.

Definition get_openai_embeddings (texts : list string) (model : string)
    (n_jobs : positive) (completed : list nat) : exn + list row :=
  gather openai_get_single_embedding texts model n_jobs completed.

Definition get_palm_embeddings (texts : list string) (model : string)
    (n_jobs : positive) (completed : list nat) : exn + list row :=
  gather palm_get_single_embedding texts model n_jobs completed.

(** The futures that resolved a given text, in completion order; the last
    of them is the one whose value stays in [embeddings_lookup]. *)
Definition resolved_by (texts : list string) (completed : list nat) (text : string)
  : list nat :=
  filter (λ future, texts !! future = Some text) completed.

Definition last_resolved (texts : list string) (completed : list nat) (text : string)
  : option nat :=
  last (resolved_by texts completed text).

End Embeddings.

(** ** Vocabulary of the statements *)

(** A computation that sends exactly one request, [r], each time it runs,
    whether it then returns or raises. *)
Definition calls_once {A} (fn : M A) (r : request) : Prop :=
  ∀ w, requests (fn w).2 = r :: requests w.

(** A computation that never sleeps by itself. *)
Definition sleepless {A} (fn : M A) : Prop :=
  ∀ w, sleeps (fn w).2 = sleeps w.

(** The sleeps of a retry loop that went through attempts [a], ..., [a + k]:
    one after each attempt but the last, newest first. *)
Fixpoint backoffs (wait : wait_random_exponential) (a k : nat)
  : list (wait_random_exponential * nat) :=
  match k with
  | 0 => []
  | S k => backoffs wait (S a) k ++ [(wait, a)]
  end.

(** The request [get_openai_response] sends for a conversation. *)
Definition chat_request (settings : Settings) (messages : list pyval) (model : string)
  : request :=
  ChatCompletion_create model messages (OPENAI_REQUEST_TIMEOUT settings) 2000 0 1.

(** The request [get_palm_response] sends for a prompt. *)
Definition text_request (prompt model : string) : request :=
  generate_text model prompt 0 1024 safety_settings.

(** The number of dicts and texts a value is built from. *)
Fixpoint pysize (v : pyval) : nat :=
  match v with
  | PStr _ => 1
  | PDict items =>
      S ((fix sum (l : list (string * pyval)) : nat :=
            match l with
            | [] => 0
            | (_, v) :: l => pysize v + sum l
            end) items)
  end.

(** The calls and sleeps of a trace, in their order (newest first), without
    the log lines. *)
Fixpoint timeline (w : world) : list event :=
  match w with
  | [] => []
  | Logged _ _ _ :: w => timeline w
  | e :: w => e :: timeline w
  end.

(** The timeline of [k] attempts with the request [r], numbered from [a],
    each followed by its backoff sleep (newest first). *)
Fixpoint attempts_with_sleeps (wait : wait_random_exponential) (r : request)
    (a k : nat) : list event :=
  match k with
  | 0 => []
  | S k => attempts_with_sleeps wait r (S a) k ++ [Slept wait a; Called r]
  end.

(** tenacity's [wait_exponential.__call__] with multiplier 1 and base 2:
    [max(max(0, min), min(1 * 2 ** (attempt_number - 1), max))].  Attempts are
    numbered from 1. *)
Definition wait_exponential (p : wait_random_exponential) (attempt_number : nat) : nat :=
  Nat.max (Nat.max 0 (wait_min p)) (Nat.min (1 * 2 ^ (attempt_number - 1)) (wait_max p)).

(** Python's [random.uniform(a, b)] is [a + (b - a) * random()]; [u] is the
    draw of [random()], a number from 0 to 1.  Numbers of seconds are
    rationals here. *)
Definition random_uniform (a b u : Q) : Q := (a + (b - a) * u)%Q.

(** tenacity's [wait_random_exponential.__call__]:
    [high = wait_exponential.__call__(...)] and
    [random.uniform(self.min, high)]: the seconds slept after the attempt
    [attempt_number] under the policy [p], for the draw [u]. *)
Definition wait_seconds (p : wait_random_exponential) (attempt_number : nat) (u : Q) : Q :=
  random_uniform (inject_Z (Z.of_nat (wait_min p)))
    (inject_Z (Z.of_nat (wait_exponential p attempt_number))) u.

(** What one failed attempt of [get_openai_response] adds to the trace,
    newest first: the request, the ERROR line with the text of the provider's
    exception, the INFO line with the messages. *)
Definition failed_attempt (settings : Settings) (messages : list pyval) (model : string)
    (e : sdk_exception) : list event :=
  [Logged INFO "Messages: " (LogMessages messages);
   Logged ERROR "OpenAI API Error: " (LogText (exc_str e));
   Called (chat_request settings messages model)].

(** What [k] failed attempts of [get_openai_response], numbered from [a] and
    each followed by its backoff sleep, add to the trace (newest first); the
    provider raised [e 0], ..., [e (k - 1)]. *)
Fixpoint failed_attempts (settings : Settings) (messages : list pyval) (model : string)
    (e : nat → sdk_exception) (a k : nat) : list event :=
  match k with
  | 0 => []
  | S k =>
      failed_attempts settings messages model (λ i, e (S i)) (S a) k
        ++ Slept (WaitRandomExponential 1 60) a
        :: failed_attempt settings messages model (e 0)
  end.

(** The log lines of a trace, newest first. *)
Fixpoint log_lines (w : world) : list (log_level * string * log_payload) :=
  match w with
  | [] => []
  | Logged level prefix p :: w => (level, prefix, p) :: log_lines w
  | _ :: w => log_lines w
  end.

(** ** Sample outside worlds, on which the statements are run *)

Definition sample_settings : Settings := {|
  API_RETRY_ATTEMPTS := 3;
  OPENAI_REQUEST_TIMEOUT := 30;
  OPEN_AI_MODEL := "gpt-3.5-turbo";
  OPENAI_EMBEDDING_MODEL := "text-embedding-ada-002";
  PALM_EMBEDDING_MODEL := "models/embedding-gecko-001";
  PALM_MODEL := "models/text-bison-001";
  MAX_WORKERS := 4
|}.

(** The same configuration with retries switched off. *)
Definition sample_settings_no_retry : Settings := {|
  API_RETRY_ATTEMPTS := 0;
  OPENAI_REQUEST_TIMEOUT := 30;
  OPEN_AI_MODEL := "gpt-3.5-turbo";
  OPENAI_EMBEDDING_MODEL := "text-embedding-ada-002";
  PALM_EMBEDDING_MODEL := "models/embedding-gecko-001";
  PALM_MODEL := "models/text-bison-001";
  MAX_WORKERS := 4
|}.

Definition rate_limit : sdk_exception :=
  SdkException "RateLimitError" "Rate limit reached for requests".

(** A provider that is down: every call raises. *)
Definition env_down : Env (list Z) := {|
  openai_ChatCompletion_create := λ _ _, inl rate_limit;
  openai_Embedding_create := λ _ _, inl rate_limit;
  palm_generate_embeddings := λ _ _, inl rate_limit;
  palm_generate_text := λ _ _, inl rate_limit;
  id_Future := λ k, (0x7f3a00 + N.of_nat k)%N
|}.

(** A provider that raises at the first [K] calls of a thread and answers
    from then on; an embedding is the row [[v; v; v]]. *)
Definition env_flaky (K : nat) (v : Z) : Env (list Z) := {|
  openai_ChatCompletion_create := λ k _,
    if bool_decide (k < K) then inl rate_limit else inr [Some "Animals > Birds"];
  openai_Embedding_create := λ k _,
    if bool_decide (k < K) then inl rate_limit else inr [[v; v; v]];
  palm_generate_embeddings := λ k _,
    if bool_decide (k < K) then inl rate_limit else inr [v; v; v];
  palm_generate_text := λ k _,
    if bool_decide (k < K) then inl rate_limit else inr (Some "Animals > Birds");
  id_Future := λ k, (0x7f3a00 + N.of_nat k)%N
|}.

(** A provider whose chat completions come back without any choice. *)
Definition env_no_choice : Env (list Z) := {|
  openai_ChatCompletion_create := λ _ _, inr [];
  openai_Embedding_create := λ _ _, inr [];
  palm_generate_embeddings := λ _ _, inl rate_limit;
  palm_generate_text := λ _ _, inl rate_limit;
  id_Future := λ k, (0x7f3a00 + N.of_nat k)%N
|}.

(** Worker threads of which the [i]-th sees the provider raise [i] times
    before it answers with the row [[i; i; i]]. *)
Definition env_slow_start (i : nat) : Env (list Z) := env_flaky i (Z.of_nat i).

(** Worker threads of which the one of future 1 finds the provider down,
    while the others are answered at once. *)
Definition env_one_down (i : nat) : Env (list Z) :=
  if bool_decide (i = 1) then env_down else env_flaky 0 (Z.of_nat i).

(** The two shapes of array a fetch can end with: [np.asarray] of a list of
    numbers is a vector; [np.asarray] of a dict is an array of dimension 0
    that holds the dict. *)
Inductive sample_array : Type :=
| Vector (components : list Z)
| BoxedDict (items : list (string * list Z)).

(** The provider as the two SDKs answer: an entry of [data] of
    [openai.Embedding.create] holds the list of numbers under ['embedding'],
    and [palm.generate_embeddings] answers with the dict
    [{'embedding': [...]}].  The task of the [i]-th text gets [[i; i; i]]. *)
Definition env_sdk_shapes (i : nat) : Env sample_array := {|
  openai_ChatCompletion_create := λ _ _, inl rate_limit;
  openai_Embedding_create := λ _ _,
    inr [Vector [Z.of_nat i; Z.of_nat i; Z.of_nat i]];
  palm_generate_embeddings := λ _ _,
    inr (BoxedDict [("embedding", [Z.of_nat i; Z.of_nat i; Z.of_nat i])]);
  palm_generate_text := λ _ _, inl rate_limit;
  id_Future := λ k, (0x7f3a00 + N.of_nat k)%N
|}.

(** The stub of the spec's example: the task of the [i]-th text gets the
    row [[i; i; i]], at its first call. *)
Definition env_stub (i : nat) : Env (list Z) := env_flaky 0 (Z.of_nat i).

(** * Properties of the retry loop *)

Lemma stop_after_attempt_left (n a : nat) :
  stop_after_attempt n a = true ↔ n - a = 0.
Proof.
  unfold stop_after_attempt. rewrite bool_decide_eq_true. lia.
Qed.

Lemma calls_made_cons_sleep wait a (w : world) :
  calls_made (Slept wait a :: w) = calls_made w.
Proof. reflexivity. Qed.

Section Retrying.
Context {A : Type}.
Variables (id_of : nat → N) (wait : wait_random_exponential).
Variables (fn : M A) (r : request).
Hypothesis fn_calls_once : calls_once fn r.

Lemma calls_once_step w x w1 :
  fn w = (x, w1) → requests w1 = r :: requests w ∧ calls_made w1 = S (calls_made w).
Proof.
  intros E. pose proof (fn_calls_once w) as H. rewrite E in H. simpl in H.
  split; [done | unfold calls_made; by rewrite H].
Qed.

(** Whatever happens, between 1 and [left + 1] requests are sent, all of
    them [r]. *)
Lemma retrying_requests left a w :
  ∃ k, 1 ≤ k ≤ S left ∧
       requests (retrying id_of wait fn left a w).2 = replicate k r ++ requests w.
Proof.
  revert a w. induction left as [|left IH]; intros a w; simpl;
    destruct (fn w) as [[e|v] w1] eqn:E;
    destruct (calls_once_step _ _ _ E) as [Hr _]; simpl;
    try (exists 1; split; [lia | by rewrite Hr]).
  destruct (IH (S a) (Slept wait a :: w1)) as (k & Hk & Hreq).
  exists (S k). split; [lia|].
  rewrite Hreq. simpl. rewrite Hr.
  change (r :: requests w) with ([r] ++ requests w).
  rewrite app_assoc. f_equal.
  change (r :: replicate k r) with (replicate (S k) r).
  by rewrite <-replicate_S_end.
Qed.

(** The only exception the loop lets out is [RetryError]. *)
Lemma retrying_raises left a w x :
  (retrying id_of wait fn left a w).1 = inl x →
  ∃ last, x = RetryError (a + left) (id_of (a + left)) last.
Proof.
  revert a w. induction left as [|left IH]; intros a w; simpl;
    destruct (fn w) as [[e|v] w1] eqn:E; simpl; try done.
  - intros [= <-]. exists e. by rewrite Nat.add_0_r.
  - intros H. apply IH in H as [last ->]. exists last.
    by replace (S a + left) with (a + S left) by lia.
Qed.

(** Every attempt fails: the loop gives up after [left + 1] requests, with
    the exception of the last attempt inside the [RetryError]. *)
Lemma retrying_exhausted (err : nat → exn) left a w :
  (∀ k w', k ≤ left → calls_made w' = calls_made w + k → (fn w').1 = inl (err k)) →
  (retrying id_of wait fn left a w).1
    = inl (RetryError (a + left) (id_of (a + left)) (err left))
  ∧ requests (retrying id_of wait fn left a w).2 = replicate (S left) r ++ requests w.
Proof.
  revert err a w. induction left as [|left IH]; intros err a w Hfail; simpl.
  - pose proof (Hfail 0 w (le_n _) (eq_sym (Nat.add_0_r _))) as H0.
    destruct (fn w) as [[e|v] w1] eqn:E; simpl in *; [|done].
    destruct (calls_once_step _ _ _ E) as [Hr _].
    injection H0 as ->. by rewrite Nat.add_0_r, Hr.
  - pose proof (Hfail 0 w (Nat.le_0_l _) (eq_sym (Nat.add_0_r _))) as H0.
    destruct (fn w) as [[e|v] w1] eqn:E; simpl in *; [|done].
    destruct (calls_once_step _ _ _ E) as [Hr Hc].
    destruct (IH (λ k, err (S k)) (S a) (Slept wait a :: w1)) as [Hres Hreq].
    { intros k w' Hk Hw'. apply Hfail; [lia|].
      rewrite Hw', calls_made_cons_sleep, Hc. lia. }
    split.
    + rewrite Hres. by replace (S a + left) with (a + S left) by lia.
    + rewrite Hreq. simpl. rewrite Hr.
      change (r :: requests w) with ([r] ++ requests w).
      rewrite app_assoc. f_equal.
      change (r :: replicate left r) with (replicate (S left) r).
      by rewrite <-replicate_S_end.
Qed.

(** The first [K] attempts fail and the next one returns [v], within the
    budget: the loop returns [v] after [K + 1] requests. *)
Lemma retrying_recovers (v : A) K left a w :
  K ≤ left →
  (∀ k w', k < K → calls_made w' = calls_made w + k → ∃ e, (fn w').1 = inl e) →
  (∀ w', calls_made w' = calls_made w + K → (fn w').1 = inr v) →
  (retrying id_of wait fn left a w).1 = inr v
  ∧ requests (retrying id_of wait fn left a w).2 = replicate (S K) r ++ requests w.
Proof.
  revert left a w. induction K as [|K IH]; intros left a w HK Hfail Hok.
  - pose proof (Hok w (eq_sym (Nat.add_0_r _))) as H0.
    destruct left; simpl; destruct (fn w) as [[e|v'] w1] eqn:E; simpl in *; try done;
      destruct (calls_once_step _ _ _ E) as [Hr _]; injection H0 as ->;
      by rewrite Hr.
  - destruct left as [|left]; [lia|]. simpl.
    destruct (Hfail 0 w (Nat.lt_0_succ _) (eq_sym (Nat.add_0_r _))) as [e0 H0].
    destruct (fn w) as [[e|v'] w1] eqn:E; simpl in *; [|done].
    destruct (calls_once_step _ _ _ E) as [Hr Hc].
    destruct (IH left (S a) (Slept wait a :: w1)) as [Hres Hreq].
    { lia. }
    { intros k w' Hk Hw'. apply (Hfail (S k)); [lia|].
      rewrite Hw', calls_made_cons_sleep, Hc. lia. }
    { intros w' Hw'. apply Hok. rewrite Hw', calls_made_cons_sleep, Hc. lia. }
    split; [done|].
    rewrite Hreq. simpl. rewrite Hr.
    change (r :: requests w) with ([r] ++ requests w).
    rewrite app_assoc. f_equal.
    change (r :: r :: replicate K r) with (replicate (S (S K)) r).
    change (r :: replicate K r) with (replicate (S K) r).
    by rewrite <-replicate_S_end.
Qed.

Hypothesis fn_sleepless : sleepless fn.

Lemma sleepless_step w x w1 : fn w = (x, w1) → sleeps w1 = sleeps w.
Proof. intros E. pose proof (fn_sleepless w) as H. by rewrite E in H. Qed.

(** Every attempt fails: the loop slept once after each attempt but the
    last, each time under the policy [wait]. *)
Lemma retrying_exhausted_sleeps left a w :
  (∀ k w', k ≤ left → calls_made w' = calls_made w + k → ∃ e, (fn w').1 = inl e) →
  sleeps (retrying id_of wait fn left a w).2 = backoffs wait a left ++ sleeps w.
Proof.
  revert a w. induction left as [|left IH]; intros a w Hfail; simpl;
    destruct (fn w) as [[e|v] w1] eqn:E; simpl;
    try (by eapply sleepless_step).
  - destruct (calls_once_step _ _ _ E) as [_ Hc].
    rewrite IH.
    + simpl. rewrite (sleepless_step _ _ _ E). by rewrite <-app_assoc.
    + intros k w' Hk Hw'. apply (Hfail (S k)); [lia|].
      rewrite Hw', calls_made_cons_sleep, Hc. lia.
  - destruct (Hfail 0 w (Nat.le_0_l _) (eq_sym (Nat.add_0_r _))) as [e0 H0].
    by rewrite E in H0.
Qed.

End Retrying.

(** * The completion path *)

Section ApiProperties.
Context {row : Type}.
Variable settings : Settings.
Variable env : Env row.

Local Abbreviation attempts := (API_RETRY_ATTEMPTS settings).

Lemma get_openai_response_wrapped_calls_once messages model :
  calls_once (get_openai_response_wrapped settings env messages model)
    (chat_request settings messages model).
Proof.
  intros w. unfold get_openai_response_wrapped, bind, sdk_call. simpl.
  destruct (openai_ChatCompletion_create env _ _) as [e|[|c cs]]; reflexivity.
Qed.

Lemma get_openai_response_wrapped_raises messages model w e :
  openai_ChatCompletion_create env (calls_made w) (chat_request settings messages model)
    = inl e →
  (get_openai_response_wrapped settings env messages model w).1
    = inl (OpenAIError (exc_str e)).
Proof.
  intros H. unfold get_openai_response_wrapped, bind, sdk_call. simpl.
  unfold chat_request in H. by rewrite H.
Qed.

Lemma get_openai_response_wrapped_returns messages model w c cs :
  openai_ChatCompletion_create env (calls_made w) (chat_request settings messages model)
    = inr (c :: cs) →
  (get_openai_response_wrapped settings env messages model w).1 = inr c.
Proof.
  intros H. unfold get_openai_response_wrapped, bind, sdk_call. simpl.
  unfold chat_request in H. by rewrite H.
Qed.

Lemma get_palm_response_wrapped_calls_once prompt model :
  calls_once (get_palm_response_wrapped env prompt model) (text_request prompt model).
Proof.
  intros w. unfold get_palm_response_wrapped, bind, sdk_call. simpl.
  destruct (palm_generate_text env _ _) as [e|c]; reflexivity.
Qed.

Lemma get_palm_response_wrapped_raises prompt model w e :
  palm_generate_text env (calls_made w) (text_request prompt model) = inl e →
  (get_palm_response_wrapped env prompt model w).1 = inl (SdkError e).
Proof.
  intros H. unfold get_palm_response_wrapped, bind, sdk_call. simpl.
  unfold text_request in H. by rewrite H.
Qed.

(** [get_openai_response_chat] changes the outcome of [get_openai_response]
    in one case only, a [RetryError], and sends nothing by itself. *)
Lemma get_openai_response_chat_outcome messages model system_message w :
  let res := get_openai_response settings env
               (conversation messages system_message) model w in
  (get_openai_response_chat settings env messages model system_message w).1
    = match res.1 with
      | inl (RetryError _ fid last) => inl (APIError (str_RetryError fid last))
      | x => x
      end
  ∧ requests (get_openai_response_chat settings env messages model system_message w).2
    = requests res.2.
Proof.
  unfold get_openai_response_chat.
  destruct (get_openai_response _ _ _ _ _) as [[[]|] w1]; by simpl.
Qed.

(** An invocation sends the conversation it built, at least once, and
    nothing else. *)
Lemma get_openai_response_chat_requests messages model system_message w :
  ∃ k, 1 ≤ k ∧
    requests (get_openai_response_chat settings env messages model system_message w).2
    = replicate k (chat_request settings (conversation messages system_message) model)
      ++ requests w.
Proof.
  destruct (get_openai_response_chat_outcome messages model system_message w) as [_ ->].
  unfold get_openai_response, retry.
  destruct (retrying_requests (id_Future env) (WaitRandomExponential 1 60) _ _
              (get_openai_response_wrapped_calls_once
                 (conversation messages system_message) model)
              (attempts - 1) 1 w) as (k & Hk & ->).
  exists k. split; [lia | done].
Qed.

(** When the provider raises at every attempt of the budget, the retry loop
    of [get_openai_response] gives up with a [RetryError] around the
    [OpenAIError] of the last attempt, after [max 1 attempts] requests. *)
Lemma get_openai_response_exhausted messages model w (e : nat → sdk_exception) :
  (∀ k, k ≤ attempts - 1 →
     openai_ChatCompletion_create env (calls_made w + k)
       (chat_request settings messages model) = inl (e k)) →
  (get_openai_response settings env messages model w).1
    = inl (RetryError (S (attempts - 1)) (id_Future env (S (attempts - 1)))
             (OpenAIError (exc_str (e (attempts - 1)))))
  ∧ requests (get_openai_response settings env messages model w).2
    = replicate (S (attempts - 1)) (chat_request settings messages model) ++ requests w.
Proof.
  intros Hfail. unfold get_openai_response, retry.
  apply (retrying_exhausted (id_Future env) (WaitRandomExponential 1 60) _ _
           (get_openai_response_wrapped_calls_once messages model)
           (λ k, OpenAIError (exc_str (e k)))).
  intros k w' Hk Hw'. apply get_openai_response_wrapped_raises.
  rewrite Hw'. by apply Hfail.
Qed.

Lemma get_palm_response_exhausted prompt model w (e : nat → sdk_exception) :
  (∀ k, k ≤ attempts - 1 →
     palm_generate_text env (calls_made w + k) (text_request prompt model) = inl (e k)) →
  (get_palm_response settings env prompt model w).1
    = inl (RetryError (S (attempts - 1)) (id_Future env (S (attempts - 1)))
             (SdkError (e (attempts - 1))))
  ∧ requests (get_palm_response settings env prompt model w).2
    = replicate (S (attempts - 1)) (text_request prompt model) ++ requests w.
Proof.
  intros Hfail. unfold get_palm_response, retry.
  apply (retrying_exhausted (id_Future env) (WaitRandomExponential 1 60) _ _
           (get_palm_response_wrapped_calls_once prompt model)
           (λ k, SdkError (e k))).
  intros k w' Hk Hw'. apply get_palm_response_wrapped_raises.
  rewrite Hw'. by apply Hfail.
Qed.

(** C2. A completion call whose provider call raises at every attempt up
    to the configured maximum ([settings.API_RETRY_ATTEMPTS], a positive
    count) raises the typed error [APIError], and by then exactly that many
    requests have been sent to the provider, all for the same conversation. *)
Theorem completion_exhausted_raises_APIError
    messages model system_message w (e : nat → sdk_exception) :
  1 ≤ attempts →
  (∀ k, k < attempts →
     openai_ChatCompletion_create env (calls_made w + k)
       (chat_request settings (conversation messages system_message) model) = inl (e k)) →
  (∃ msg,
     (get_openai_response_chat settings env messages model system_message w).1
       = inl (APIError msg))
  ∧ requests (get_openai_response_chat settings env messages model system_message w).2
    = replicate attempts
        (chat_request settings (conversation messages system_message) model)
      ++ requests w.
Proof.
  intros Hpos Hfail.
  destruct (get_openai_response_chat_outcome messages model system_message w)
    as [-> ->].
  destruct (get_openai_response_exhausted
              (conversation messages system_message) model w e) as [-> ->].
  { intros k Hk. apply Hfail. lia. }
  replace (S (attempts - 1)) with attempts by lia.
  split; [by eexists | done].
Qed.

(** C3. A completion call whose provider call raises at the first [K]
    attempts and answers at the next one, with [K] below the configured
    maximum, returns the content of that answer (after [K + 1] requests). *)
Theorem completion_recovers_after_transient_failures
    messages model system_message w K content choices :
  K < attempts →
  (∀ k, k < K →
     ∃ e, openai_ChatCompletion_create env (calls_made w + k)
            (chat_request settings (conversation messages system_message) model) = inl e) →
  openai_ChatCompletion_create env (calls_made w + K)
    (chat_request settings (conversation messages system_message) model)
    = inr (content :: choices) →
  (get_openai_response_chat settings env messages model system_message w).1 = inr content
  ∧ requests (get_openai_response_chat settings env messages model system_message w).2
    = replicate (S K)
        (chat_request settings (conversation messages system_message) model)
      ++ requests w.
Proof.
  intros HK Hfail Hok.
  destruct (get_openai_response_chat_outcome messages model system_message w)
    as [-> ->].
  unfold get_openai_response, retry.
  destruct (retrying_recovers (id_Future env) (WaitRandomExponential 1 60) _ _
              (get_openai_response_wrapped_calls_once
                 (conversation messages system_message) model)
              content K (attempts - 1) 1 w) as [-> ->]; [lia | | | done].
  - intros k w' Hk Hw'. destruct (Hfail k Hk) as [e He].
    exists (OpenAIError (exc_str e)).
    apply get_openai_response_wrapped_raises. by rewrite Hw'.
  - intros w' Hw'. apply get_openai_response_wrapped_returns with choices.
    by rewrite Hw'.
Qed.

(** C4, as the code has it.  When the retry budget of a completion call is
    exhausted, the caller of [get_openai_response_chat] sees the typed error
    [APIError], and whatever [get_openai_response_chat] raises is an
    [APIError]: never the provider's exception, never tenacity's
    [RetryError].  [get_palm_response] has no such wrapper: its caller sees
    tenacity's [RetryError], which holds the provider's exception of the last
    attempt. *)
Theorem exhausted_budget_errors
    messages model system_message prompt palm_model w (e : nat → sdk_exception) :
  ((∀ k, k ≤ attempts - 1 →
      openai_ChatCompletion_create env (calls_made w + k)
        (chat_request settings (conversation messages system_message) model) = inl (e k)) →
   ∃ msg,
     (get_openai_response_chat settings env messages model system_message w).1
       = inl (APIError msg))
  ∧ (∀ x,
       (get_openai_response_chat settings env messages model system_message w).1 = inl x →
       ∃ msg, x = APIError msg)
  ∧ ((∀ k, k ≤ attempts - 1 →
        palm_generate_text env (calls_made w + k) (text_request prompt palm_model)
          = inl (e k)) →
     ∃ n fid,
       (get_palm_response settings env prompt palm_model w).1
         = inl (RetryError n fid (SdkError (e (attempts - 1))))).
Proof.
  split; [|split].
  - intros Hfail.
    destruct (get_openai_response_chat_outcome messages model system_message w)
      as [-> _].
    destruct (get_openai_response_exhausted
                (conversation messages system_message) model w e Hfail) as [-> _].
    by eexists.
  - intros x.
    destruct (get_openai_response_chat_outcome messages model system_message w)
      as [-> _].
    destruct (get_openai_response settings env _ model w).1 as [y|v] eqn:E; [|done].
    unfold get_openai_response, retry in E.
    apply retrying_raises in E as [last ->].
    intros [= <-]. by eexists.
  - intros Hfail.
    destruct (get_palm_response_exhausted prompt palm_model w e Hfail) as [-> _].
    by do 2 eexists.
Qed.

(** C5. A single prompt with the default system message: what is sent to
    the provider, at every attempt, is the conversation of exactly two
    messages, the system message and then the user message whose content is
    the prompt. *)
Theorem single_prompt_conversation prompt model w :
  conversation (Prompt prompt) default_system_message
    = [PDict [("role", PStr "system");
              ("content", PStr "You are an expert taxonomy creator.")];
       PDict [("role", PStr "user"); ("content", PStr prompt)]]
  ∧ ∃ k, 1 ≤ k ∧
      requests
        (get_openai_response_chat settings env (Prompt prompt) model
           default_system_message w).2
      = replicate k
          (chat_request settings
             [PDict [("role", PStr "system");
                     ("content", PStr "You are an expert taxonomy creator.")];
              PDict [("role", PStr "user"); ("content", PStr prompt)]] model)
        ++ requests w.
Proof.
  split; [reflexivity|].
  apply (get_openai_response_chat_requests (Prompt prompt) model default_system_message w).
Qed.

Lemma pysize_wrapped key items :
  PDict [key; ("content", PDict items)] ≠ PDict items.
Proof.
  intros H. apply (f_equal pysize) in H. destruct key as [k v].
  simpl in H. lia.
Qed.

(** C9. A system message that the caller passes as a dict is wrapped once
    more: the first message sent to the provider is
    [{"role": "system", "content": <the dict>}], whose content is the dict and
    not text, and which is not the caller's dict. *)
Theorem dict_system_message_is_rewrapped messages model items w :
  let sent := PDict [("role", PStr "system"); ("content", PDict items)] in
  sent ≠ PDict items
  ∧ ∃ rest k, 1 ≤ k ∧
      conversation messages (PDict items) = sent :: rest
      ∧ requests
          (get_openai_response_chat settings env messages model (PDict items) w).2
        = replicate k (chat_request settings (sent :: rest) model) ++ requests w.
Proof.
  intros sent. split; [apply pysize_wrapped|].
  destruct (get_openai_response_chat_requests messages model (PDict items) w)
    as (k & Hk & Hreq).
  destruct messages as [text|ms].
  - by exists [PDict [("role", PStr "user"); ("content", PStr text)]], k.
  - by exists ms, k.
Qed.

(** C10. For a list of messages, what is sent to the provider is the system
    message followed by the caller's list, unchanged and in its order: one
    message more than the list has, whatever the list begins with. *)
Theorem message_list_conversation (messages : list pyval) model system_message w :
  let sent := PDict [("role", PStr "system"); ("content", system_message)] :: messages in
  conversation (Conversation messages) system_message = sent
  ∧ length sent = length messages + 1
  ∧ (∀ i, sent !! (S i) = messages !! i)
  ∧ ∃ k, 1 ≤ k ∧
      requests
        (get_openai_response_chat settings env (Conversation messages) model
           system_message w).2
      = replicate k (chat_request settings sent model) ++ requests w.
Proof.
  intros sent. split; [reflexivity|]. split; [simpl; lia|]. split; [done|].
  apply (get_openai_response_chat_requests (Conversation messages) model system_message w).
Qed.

End ApiProperties.

(** * Batch embedding retrieval *)

Section CollectProperties.
Context {row : Type}.
Variable result : nat → string → exn + row.
Variable futures : gmap nat string.

(** When every future that completes has a value, the loop ends with a
    lookup in which each text holds the value of the last future that
    resolved it, and a text no future resolved holds what it held before. *)
Lemma collect_all_done (vals : nat → row) completed (lookup0 : gmap string row) :
  (∀ f, f ∈ completed → ∃ t, futures !! f = Some t ∧ result f t = inr (vals f)) →
  ∃ lookup,
    collect result futures completed lookup0 = inr lookup
    ∧ ∀ t, lookup !! t
           = match last (filter (λ f, futures !! f = Some t) completed) with
             | Some f => Some (vals f)
             | None => lookup0 !! t
             end.
Proof.
  revert lookup0. induction completed as [|f rest IH]; intros lookup0 Hdone; simpl.
  - by exists lookup0.
  - destruct (Hdone f) as (tf & Htf & Hres); [by left|]. rewrite Htf, Hres.
    destruct (IH (<[tf := vals f]> lookup0)) as (lookup & -> & Hlookup).
    { intros g Hg. apply Hdone. by right. }
    exists lookup. split; [done|]. intros t. rewrite Hlookup.
    destruct (decide (tf = t)) as [->|Hne].
    + rewrite filter_cons_True by done. rewrite last_cons.
      destruct (last _); [done|]. by rewrite lookup_insert_eq.
    + rewrite filter_cons_False by congruence.
      destruct (last _); [done|]. by rewrite lookup_insert_ne.
Qed.

(** When some future that completes has raised, the loop raises what the
    first such future raised, and no lookup comes out of it. *)
Lemma collect_aborts completed (lookup0 : gmap string row) :
  (∀ f, f ∈ completed → is_Some (futures !! f)) →
  (∃ f t x, f ∈ completed ∧ futures !! f = Some t ∧ result f t = inl x) →
  ∃ f t x, f ∈ completed ∧ futures !! f = Some t ∧ result f t = inl x
           ∧ collect result futures completed lookup0 = inl x.
Proof.
  revert lookup0. induction completed as [|f rest IH]; intros lookup0 Hkeys Hbad.
  - destruct Hbad as (f & _ & _ & Hf & _). by apply elem_of_nil in Hf.
  - simpl. destruct (Hkeys f) as [tf Htf]; [by left|]. rewrite Htf.
    destruct (result f tf) as [x|v] eqn:Hres.
    + exists f, tf, x. repeat split; [by left | done | done].
    + destruct (IH (<[tf := v]> lookup0)) as (g & t & x & Hg & Ht & Hx & Hc).
      { intros g Hg. apply Hkeys. by right. }
      { destruct Hbad as (g & t & x & Hg & Ht & Hx).
        apply elem_of_cons in Hg as [->|Hg]; [congruence|]. by exists g, t, x. }
      exists g, t, x. repeat split; [by right | done | done | done].
Qed.

End CollectProperties.

Lemma rows_of_all_found {row} (lookup : gmap string row) (texts : list string)
    (pick : string → row) :
  (∀ t, t ∈ texts → lookup !! t = Some (pick t)) →
  rows_of lookup texts = inr (pick <$> texts).
Proof.
  induction texts as [|t texts IH]; intros Hall; simpl; [done|].
  rewrite (Hall t) by by left. rewrite IH; [done|].
  intros t' Ht'. apply Hall. by right.
Qed.

Section GatherProperties.
Context {row : Type}.
Variable task_env : nat → Env row.
Variable get_single_embedding : Env row → string → string → M row.

(** The pool as a whole, when every task ends with a value: one row per
    position, and the row at a position is the value of the future that was
    the last to resolve the text at that position. *)
Lemma gather_all_done texts model n_jobs completed (vals : nat → row) :
  completed ≡ₚ seq 0 (length texts) →
  (∀ i t, texts !! i = Some t →
     future_result task_env get_single_embedding model i t = inr (vals i)) →
  ∃ rows,
    gather task_env get_single_embedding texts model n_jobs completed = inr rows
    ∧ length rows = length texts
    ∧ ∀ i t, texts !! i = Some t →
        ∃ j, last_resolved texts completed t = Some j
             ∧ texts !! j = Some t
             ∧ rows !! i = Some (vals j).
Proof.
  intros Hperm Hdone. unfold gather.
  destruct (collect_all_done (future_result task_env get_single_embedding model)
              (submit_all texts) vals completed ∅) as (lookup & -> & Hlookup).
  { intros f Hf. rewrite Hperm in Hf. apply elem_of_seq in Hf.
    destruct (lookup_lt_is_Some_2 texts f) as [t Ht]; [lia|].
    exists t. unfold submit_all. rewrite lookup_map_seq_0. by split; [|apply Hdone]. }
  assert (Hlast : ∀ i t, texts !! i = Some t →
            ∃ j, last_resolved texts completed t = Some j ∧ texts !! j = Some t
                 ∧ lookup !! t = Some (vals j)).
  { intros i t Hi.
    assert (Hin : i ∈ resolved_by texts completed t).
    { apply list_elem_of_filter. split; [done|]. rewrite Hperm. apply elem_of_seq.
      apply lookup_lt_Some in Hi. lia. }
    destruct (last (resolved_by texts completed t)) as [j|] eqn:Hj.
    - exists j. split; [done|].
      pose proof (last_Some_elem_of _ _ Hj) as Hj'.
      apply list_elem_of_filter in Hj'. split; [by apply Hj'|].
      rewrite Hlookup.
      replace (filter (λ f, submit_all texts !! f = Some t) completed)
        with (resolved_by texts completed t); [by rewrite Hj|].
      unfold resolved_by. apply list_filter_iff. intros f.
      unfold submit_all. by rewrite lookup_map_seq_0.
    - apply last_None in Hj. rewrite Hj in Hin. by apply elem_of_nil in Hin. }
  set (pick := λ t, match last_resolved texts completed t with
                    | Some j => vals j
                    | None => vals 0
                    end).
  rewrite (rows_of_all_found lookup texts pick).
  - eexists. split; [done|]. split; [by rewrite length_fmap|].
    intros i t Hi. destruct (Hlast i t Hi) as (j & Hj & Htj & _).
    exists j. split; [done|]. split; [done|].
    rewrite list_lookup_fmap, Hi. simpl. unfold pick. by rewrite Hj.
  - intros t Ht. apply list_elem_of_lookup in Ht as [i Hi].
    destruct (Hlast i t Hi) as (j & Hj & _ & ->). unfold pick. by rewrite Hj.
Qed.

(** The pool as a whole, when some task raised: the batch raises what one
    of the failed tasks raised, and returns no rows. *)
Lemma gather_aborts texts model n_jobs completed i t x :
  completed ≡ₚ seq 0 (length texts) →
  texts !! i = Some t →
  future_result task_env get_single_embedding model i t = inl x →
  ∃ j tj y,
    texts !! j = Some tj
    ∧ future_result task_env get_single_embedding model j tj = inl y
    ∧ gather task_env get_single_embedding texts model n_jobs completed = inl y.
Proof.
  intros Hperm Hi Hx. unfold gather.
  destruct (collect_aborts (future_result task_env get_single_embedding model)
              (submit_all texts) completed ∅) as (j & tj & y & _ & Hj & Hy & ->).
  - intros f Hf. rewrite Hperm in Hf. apply elem_of_seq in Hf.
    unfold submit_all. rewrite lookup_map_seq_0. apply lookup_lt_is_Some_2. lia.
  - exists i, t, x. split; [|split; [|done]].
    + rewrite Hperm. apply elem_of_seq. apply lookup_lt_Some in Hi. lia.
    + unfold submit_all. by rewrite lookup_map_seq_0.
  - exists j, tj, y. unfold submit_all in Hj. rewrite lookup_map_seq_0 in Hj. done.
Qed.

End GatherProperties.

Section EmbeddingProperties.
Context {row : Type}.
Variable task_env : nat → Env row.

(** The body that [@retry] wraps in [get_openai_embeddings] sends one
    request per run, does not sleep, and raises what the SDK raised. *)
Lemma openai_get_single_embedding_exhausted env text model w (e : nat → sdk_exception) :
  (∀ k, k < 6 →
     openai_Embedding_create env (calls_made w + k) (Embedding_create [text] model)
       = inl (e k)) →
  (openai_get_single_embedding env text model w).1
    = inl (RetryError 6 (id_Future env 6) (SdkError (e 5)))
  ∧ requests (openai_get_single_embedding env text model w).2
    = replicate 6 (Embedding_create [text] model) ++ requests w
  ∧ sleeps (openai_get_single_embedding (row:=row) env text model w).2
    = backoffs (WaitRandomExponential 1 20) 1 5 ++ sleeps w.
Proof.
  intros Hfail. unfold openai_get_single_embedding, retry.
  change (6 - 1) with 5.
  match goal with |- context [retrying _ _ ?f _ _ _] => set (fn := f) end.
  assert (Hc : calls_once fn (Embedding_create [text] model)).
  { intros w'. unfold fn, bind, sdk_call. simpl.
    destruct (openai_Embedding_create env _ _) as [x|[|d ds]]; reflexivity. }
  assert (Hs : sleepless fn).
  { intros w'. unfold fn, bind, sdk_call. simpl.
    destruct (openai_Embedding_create env _ _) as [x|[|d ds]]; reflexivity. }
  assert (Hf : ∀ k w', k ≤ 5 → calls_made w' = calls_made w + k →
                 (fn w').1 = inl (SdkError (e k))).
  { intros k w' Hk Hw'. unfold fn, bind, sdk_call. simpl.
    rewrite Hw', Hfail by lia. reflexivity. }
  destruct (retrying_exhausted (id_Future env) (WaitRandomExponential 1 20) fn _ Hc
              (λ k, SdkError (e k)) 5 1 w Hf) as [Hres Hreq].
  split; [exact Hres|]. split; [exact Hreq|].
  apply (retrying_exhausted_sleeps (id_Future env) (WaitRandomExponential 1 20) fn _ Hc Hs).
  intros k w' Hk Hw'. eexists. by apply Hf.
Qed.

(** A fetch never sends more than 6 requests. *)
Lemma openai_get_single_embedding_requests (env : Env row) text model w :
  ∃ k, 1 ≤ k ≤ 6 ∧
    requests (openai_get_single_embedding env text model w).2
    = replicate k (Embedding_create [text] model) ++ requests w.
Proof.
  unfold openai_get_single_embedding, retry. change (6 - 1) with 5.
  apply retrying_requests.
  intros w'. unfold bind, sdk_call. simpl.
  destruct (openai_Embedding_create env _ _) as [x|[|d ds]]; reflexivity.
Qed.

(** Whatever a future of the pool raises is a [RetryError] of the sixth
    attempt. *)
Lemma openai_future_raises model i t x :
  future_result task_env openai_get_single_embedding model i t = inl x →
  ∃ last, x = RetryError 6 (id_Future (task_env i) 6) last.
Proof.
  unfold future_result, openai_get_single_embedding, retry. intros H.
  by apply retrying_raises in H.
Qed.

(** C6. Whatever the texts, duplicates included: when all fetches end with
    a value, the batch has one row per position; the row at a position is the
    value of the future that was the last, in completion order, to resolve the
    text at that position; so positions with the same text have the same
    row. *)
Theorem duplicate_texts_share_the_last_resolved_row
    texts model n_jobs completed (vals : nat → row) :
  completed ≡ₚ seq 0 (length texts) →
  (∀ i t, texts !! i = Some t →
     future_result task_env openai_get_single_embedding model i t = inr (vals i)) →
  ∃ rows,
    get_openai_embeddings task_env texts model n_jobs completed = inr rows
    ∧ length rows = length texts
    ∧ (∀ i t, texts !! i = Some t →
         ∃ j, last_resolved texts completed t = Some j
              ∧ texts !! j = Some t
              ∧ rows !! i = Some (vals j))
    ∧ (∀ i i' t, texts !! i = Some t → texts !! i' = Some t → rows !! i = rows !! i').
Proof.
  intros Hperm Hdone.
  destruct (gather_all_done task_env openai_get_single_embedding
              texts model n_jobs completed vals Hperm Hdone) as (rows & Hg & Hlen & Hrows).
  exists rows. split; [exact Hg|]. split; [exact Hlen|]. split; [exact Hrows|].
  intros i i' t Hi Hi'.
  destruct (Hrows i t Hi) as (j & Hj & _ & ->).
  destruct (Hrows i' t Hi') as (j' & Hj' & _ & ->).
  congruence.
Qed.

(** C7, as the code has it.  A fetch of the batch is attempted at most 6
    times, with a sleep under [wait_random_exponential(min=1, max=20)] after
    each failed attempt but the last.  When the provider raises at all 6
    attempts of the fetch of some text, that fetch ends with tenacity's
    [RetryError], which holds the provider's exception of the sixth attempt,
    and the batch returns no rows: it raises the [RetryError] of a fetch that
    failed (an untyped error, not the provider's exception itself). *)
Theorem exhausted_fetch_aborts_the_batch
    texts model n_jobs completed i text (e : nat → sdk_exception) :
  completed ≡ₚ seq 0 (length texts) →
  texts !! i = Some text →
  (∀ k, k < 6 →
     openai_Embedding_create (task_env i) k (Embedding_create [text] model) = inl (e k)) →
  (openai_get_single_embedding (task_env i) text model []).1
    = inl (RetryError 6 (id_Future (task_env i) 6) (SdkError (e 5)))
  ∧ requests (openai_get_single_embedding (task_env i) text model []).2
    = replicate 6 (Embedding_create [text] model)
  ∧ sleeps (openai_get_single_embedding (task_env i) text model []).2
    = backoffs (WaitRandomExponential 1 20) 1 5
  ∧ ∃ j tj last,
      texts !! j = Some tj
      ∧ future_result task_env openai_get_single_embedding model j tj
        = inl (RetryError 6 (id_Future (task_env j) 6) last)
      ∧ get_openai_embeddings task_env texts model n_jobs completed
        = inl (RetryError 6 (id_Future (task_env j) 6) last).
Proof.
  intros Hperm Hi Hfail.
  destruct (openai_get_single_embedding_exhausted (task_env i) text model [] e)
    as (Hres & Hreq & Hsl); [done|].
  rewrite app_nil_r in Hreq, Hsl.
  split; [exact Hres|]. split; [exact Hreq|]. split; [exact Hsl|].
  destruct (gather_aborts task_env openai_get_single_embedding texts model n_jobs
              completed i text _ Hperm Hi Hres) as (j & tj & y & Hj & Hy & Hg).
  destruct (openai_future_raises model j tj y Hy) as [last ->].
  by exists j, tj, last.
Qed.

End EmbeddingProperties.

(** * The statements at sample inputs *)

(** C2 at a provider that is down, with 3 attempts configured. *)
Lemma completion_exhausted_raises_APIError_witness :
  1 ≤ API_RETRY_ATTEMPTS sample_settings
  ∧ (∃ msg,
       (get_openai_response_chat sample_settings env_down (Prompt "Sort these topics")
          "gpt-3.5-turbo" default_system_message []).1 = inl (APIError msg))
  ∧ requests
      (get_openai_response_chat sample_settings env_down (Prompt "Sort these topics")
         "gpt-3.5-turbo" default_system_message []).2
    = replicate 3
        (chat_request sample_settings
           (conversation (Prompt "Sort these topics") default_system_message)
           "gpt-3.5-turbo")
      ++ requests [].
Proof.
  split; [simpl; lia|].
  apply (completion_exhausted_raises_APIError sample_settings env_down
           (Prompt "Sort these topics") "gpt-3.5-turbo" default_system_message []
           (λ _, rate_limit)).
  - simpl; lia.
  - intros k _. reflexivity.
Defined.

(** C3 at a provider that raises twice and then answers, with 3 attempts
    configured. *)
Lemma completion_recovers_after_transient_failures_witness :
  2 < API_RETRY_ATTEMPTS sample_settings
  ∧ (get_openai_response_chat sample_settings (env_flaky 2 0) (Prompt "Sort these topics")
       "gpt-3.5-turbo" default_system_message []).1 = inr (Some "Animals > Birds")
  ∧ requests
      (get_openai_response_chat sample_settings (env_flaky 2 0) (Prompt "Sort these topics")
         "gpt-3.5-turbo" default_system_message []).2
    = replicate 3
        (chat_request sample_settings
           (conversation (Prompt "Sort these topics") default_system_message)
           "gpt-3.5-turbo")
      ++ requests [].
Proof.
  split; [simpl; lia|].
  apply (completion_recovers_after_transient_failures sample_settings (env_flaky 2 0)
           (Prompt "Sort these topics") "gpt-3.5-turbo" default_system_message []
           2 (Some "Animals > Birds") []).
  - simpl; lia.
  - intros k Hk. exists rate_limit. simpl.
    destruct k as [|[|k]]; [reflexivity | reflexivity | lia].
  - reflexivity.
Defined.

(** C4, as the code has it, at a provider that is down. *)
Lemma exhausted_budget_errors_witness :
  (∃ msg,
     (get_openai_response_chat sample_settings env_down (Prompt "Sort these topics")
        "gpt-3.5-turbo" default_system_message []).1 = inl (APIError msg))
  ∧ (∃ n fid,
       (get_palm_response sample_settings env_down "Sort these topics"
          "models/text-bison-001" []).1 = inl (RetryError n fid (SdkError rate_limit))).
Proof.
  destruct (exhausted_budget_errors sample_settings env_down
              (Prompt "Sort these topics") "gpt-3.5-turbo" default_system_message
              "Sort these topics" "models/text-bison-001" [] (λ _, rate_limit))
    as (Hchat & _ & Hpalm).
  split.
  - apply Hchat. intros k _. reflexivity.
  - apply Hpalm. intros k _. reflexivity.
Defined.

(** C4 as the spec words it fails twice at a provider that is down.  The
    caller of [get_palm_response] sees tenacity's [RetryError], which is not
    a typed API error; and the [APIError] that [get_openai_response_chat]
    raises carries the text of the [RetryError], which names the class of the
    last failure and not its message. *)
Lemma typed_error_with_original_message_fails :
  (get_palm_response sample_settings env_down "Sort these topics"
     "models/text-bison-001" []).1
    = inl (RetryError 3 0x7f3a03 (SdkError rate_limit))
  ∧ is_APIError (RetryError 3 0x7f3a03 (SdkError rate_limit)) = false
  ∧ (get_openai_response_chat sample_settings env_down (Prompt "Sort these topics")
       "gpt-3.5-turbo" default_system_message []).1
    = inl (APIError "RetryError[<Future at 0x7f3a03 state=finished raised OpenAIError>]")
  ∧ "RetryError[<Future at 0x7f3a03 state=finished raised OpenAIError>]"
    ≠ exc_str rate_limit.
Proof.
  split; [reflexivity|]. split; [reflexivity|]. split; [reflexivity|]. discriminate.
Qed.

(** C6 at texts with a duplicate: futures 0 and 2 both resolve ["a"];
    future 0 completes last, and both positions get its row. *)
Lemma duplicate_texts_share_the_last_resolved_row_witness :
  ∃ rows,
    get_openai_embeddings env_stub ["a"; "b"; "a"] "text-embedding-ada-002" 4 [2; 1; 0]
      = inr rows
    ∧ length rows = 3
    ∧ (∀ i t, ["a"; "b"; "a"] !! i = Some t →
         ∃ j, last_resolved ["a"; "b"; "a"] [2; 1; 0] t = Some j
              ∧ ["a"; "b"; "a"] !! j = Some t
              ∧ rows !! i = Some [Z.of_nat j; Z.of_nat j; Z.of_nat j])
    ∧ (∀ i i' t, ["a"; "b"; "a"] !! i = Some t → ["a"; "b"; "a"] !! i' = Some t →
         rows !! i = rows !! i').
Proof.
  apply (duplicate_texts_share_the_last_resolved_row env_stub ["a"; "b"; "a"]
           "text-embedding-ada-002" 4 [2; 1; 0]
           (λ i, [Z.of_nat i; Z.of_nat i; Z.of_nat i])).
  - apply (bool_decide_unpack _); vm_compute; exact I.
  - intros [|[|[|i]]] t Ht; simpl in Ht; try discriminate; reflexivity.
Defined.

(** C7, as the code has it, at a batch of one text and a provider that is
    down. *)
Lemma exhausted_fetch_aborts_the_batch_witness :
  (openai_get_single_embedding env_down "a" "text-embedding-ada-002" []).1
    = inl (RetryError 6 (id_Future env_down 6) (SdkError rate_limit))
  ∧ requests (openai_get_single_embedding env_down "a" "text-embedding-ada-002" []).2
    = replicate 6 (Embedding_create ["a"] "text-embedding-ada-002")
  ∧ sleeps (openai_get_single_embedding env_down "a" "text-embedding-ada-002" []).2
    = backoffs (WaitRandomExponential 1 20) 1 5
  ∧ ∃ j tj last,
      ["a"] !! j = Some tj
      ∧ future_result (λ _, env_down) openai_get_single_embedding
          "text-embedding-ada-002" j tj
        = inl (RetryError 6 (id_Future env_down 6) last)
      ∧ get_openai_embeddings (λ _, env_down) ["a"] "text-embedding-ada-002" 1 [0]
        = inl (RetryError 6 (id_Future env_down 6) last).
Proof.
  apply (exhausted_fetch_aborts_the_batch (λ _, env_down) ["a"]
           "text-embedding-ada-002" 1 [0] 0 "a" (λ _, rate_limit)).
  - apply (bool_decide_unpack _); vm_compute; exact I.
  - reflexivity.
  - intros k _. reflexivity.
Defined.

(** C7 as the spec words it fails at that input: what comes out of the
    batch is not the provider's exception but a [RetryError] around it. *)
Lemma raw_provider_exception_does_not_propagate :
  (∀ k r, openai_Embedding_create env_down k r = inl rate_limit)
  ∧ get_openai_embeddings (λ _, env_down) ["a"] "text-embedding-ada-002" 1 [0]
    = inl (RetryError 6 0x7f3a06 (SdkError rate_limit))
  ∧ get_openai_embeddings (λ _, env_down) ["a"] "text-embedding-ada-002" 1 [0]
    ≠ inl (SdkError rate_limit).
Proof.
  split; [reflexivity|]. split; [reflexivity|]. discriminate.
Qed.

(** The example of the spec, in every completion order: the rows come out
    as [[0,0,0], [1,1,1], [2,2,2]]. *)
Example stub_batch_in_every_order :
  Forall (λ completed,
            get_openai_embeddings env_stub ["a"; "b"; "c"] "text-embedding-ada-002" 4
              completed
            = inr [[0; 0; 0]; [1; 1; 1]; [2; 2; 2]]%Z)
    (permutations [0; 1; 2]).
Proof. repeat constructor. Qed.

(** With a duplicate, the position of the duplicate gets the row of the
    future that completed last, whichever that is. *)
Example duplicate_rows_depend_on_completion_order :
  get_openai_embeddings env_stub ["a"; "b"; "a"] "text-embedding-ada-002" 4 [2; 1; 0]
    = inr [[0; 0; 0]; [1; 1; 1]; [0; 0; 0]]%Z
  ∧ get_openai_embeddings env_stub ["a"; "b"; "a"] "text-embedding-ada-002" 4 [0; 1; 2]
    = inr [[2; 2; 2]; [1; 1; 1]; [2; 2; 2]]%Z.
Proof. split; reflexivity. Qed.

(** A message list that already begins with a system message is sent with
    a second one in front. *)
Example system_message_is_not_merged :
  conversation
    (Conversation [PDict [("role", PStr "system"); ("content", PStr "Be brief.")];
                   PDict [("role", PStr "user"); ("content", PStr "Sort these topics")]])
    default_system_message
  = [PDict [("role", PStr "system");
            ("content", PStr "You are an expert taxonomy creator.")];
     PDict [("role", PStr "system"); ("content", PStr "Be brief.")];
     PDict [("role", PStr "user"); ("content", PStr "Sort these topics")]].
Proof. reflexivity. Qed.

(** * Further properties of the retry loop *)

Section RetryingTrace.
Context {A : Type}.
Variables (id_of : nat → N) (wait : wait_random_exponential).
Variables (fn : M A) (r : request).
Hypothesis fn_calls_once : calls_once fn r.
Hypothesis fn_sleepless : sleepless fn.

(** The loop sleeps once between two consecutive attempts and never after
    the last one: [k] requests go with [k - 1] sleeps. *)
Lemma retrying_requests_sleeps left a w :
  ∃ k, 1 ≤ k ≤ S left
       ∧ requests (retrying id_of wait fn left a w).2 = replicate k r ++ requests w
       ∧ sleeps (retrying id_of wait fn left a w).2 = backoffs wait a (k - 1) ++ sleeps w.
Proof.
  revert a w. induction left as [|left IH]; intros a w; simpl;
    destruct (fn w) as [[e|v] w1] eqn:E;
    destruct (calls_once_step fn r fn_calls_once _ _ _ E) as [Hr _];
    pose proof (sleepless_step fn fn_sleepless _ _ _ E) as Hs; simpl;
    try (exists 1; split; [lia | by rewrite Hr, Hs]).
  destruct (IH (S a) (Slept wait a :: w1)) as (k & Hk & Hreq & Hsl).
  exists (S k). split; [lia|]. split.
  - rewrite Hreq. simpl. rewrite Hr.
    change (r :: requests w) with ([r] ++ requests w).
    rewrite app_assoc. f_equal.
    change (r :: replicate k r) with (replicate (S k) r).
    by rewrite <-replicate_S_end.
  - rewrite Hsl. simpl. rewrite Hs, Nat.sub_0_r.
    destruct k as [|k]; [lia|]. simpl. rewrite Nat.sub_0_r. by rewrite <-app_assoc.
Qed.

End RetryingTrace.

Section RetryingTimeline.
Context {A : Type}.
Variables (id_of : nat → N) (wait : wait_random_exponential).
Variables (fn : M A) (r : request).
Hypothesis fn_attempt : ∀ w, timeline (fn w).2 = Called r :: timeline w.

(** The loop alternates attempts and sleeps: after every attempt but the
    last comes one sleep, numbered like the attempt, and the last attempt is
    the newest event of the timeline. *)
Lemma retrying_timeline left a w :
  ∃ k, 1 ≤ k ≤ S left
       ∧ timeline (retrying id_of wait fn left a w).2
         = Called r :: attempts_with_sleeps wait r a (k - 1) ++ timeline w.
Proof.
  revert a w. induction left as [|left IH]; intros a w; simpl;
    pose proof (fn_attempt w) as Hw;
    destruct (fn w) as [[e|v] w1] eqn:E; simpl in *;
    try (exists 1; split; [lia | by rewrite Hw]).
  destruct (IH (S a) (Slept wait a :: w1)) as (k & Hk & Htl).
  exists (S k). split; [lia|].
  rewrite Htl. simpl. rewrite Hw, Nat.sub_0_r.
  destruct k as [|k]; [lia|]. simpl. rewrite Nat.sub_0_r.
  by rewrite <-app_assoc.
Qed.

End RetryingTimeline.

(** * Further properties of the completion path *)

Section CompletionTrace.
Context {row : Type}.
Variable settings : Settings.
Variable env : Env row.

Local Abbreviation attempts := (API_RETRY_ATTEMPTS settings).
Local Abbreviation backoff60 := (WaitRandomExponential 1 60).

Lemma get_openai_response_wrapped_sleepless messages model :
  sleepless (get_openai_response_wrapped settings env messages model).
Proof.
  intros w. unfold get_openai_response_wrapped, bind, sdk_call. simpl.
  destruct (openai_ChatCompletion_create env _ _) as [e|[|c cs]]; reflexivity.
Qed.

Lemma get_palm_response_wrapped_sleepless prompt model :
  sleepless (get_palm_response_wrapped env prompt model).
Proof.
  intros w. unfold get_palm_response_wrapped, bind, sdk_call. simpl.
  destruct (palm_generate_text env _ _) as [e|c]; reflexivity.
Qed.

Lemma get_openai_response_wrapped_attempt messages model w :
  timeline (get_openai_response_wrapped settings env messages model w).2
    = Called (chat_request settings messages model) :: timeline w.
Proof.
  unfold get_openai_response_wrapped, bind, sdk_call. simpl.
  destruct (openai_ChatCompletion_create env _ _) as [e|[|c cs]]; reflexivity.
Qed.

Lemma get_palm_response_wrapped_attempt prompt model w :
  timeline (get_palm_response_wrapped env prompt model w).2
    = Called (text_request prompt model) :: timeline w.
Proof.
  unfold get_palm_response_wrapped, bind, sdk_call. simpl.
  destruct (palm_generate_text env _ _) as [e|c]; reflexivity.
Qed.

(** One run of the body when the provider raises: the outcome and the whole
    trace. *)
Lemma get_openai_response_wrapped_raises_trace messages model w e :
  openai_ChatCompletion_create env (calls_made w) (chat_request settings messages model)
    = inl e →
  get_openai_response_wrapped settings env messages model w
    = (inl (OpenAIError (exc_str e)), failed_attempt settings messages model e ++ w).
Proof.
  intros H. unfold get_openai_response_wrapped, bind, sdk_call. simpl.
  unfold chat_request in H. by rewrite H.
Qed.

Lemma get_openai_response_wrapped_returns_trace messages model w c cs :
  openai_ChatCompletion_create env (calls_made w) (chat_request settings messages model)
    = inr (c :: cs) →
  get_openai_response_wrapped settings env messages model w
    = (inr c, Called (chat_request settings messages model) :: w).
Proof.
  intros H. unfold get_openai_response_wrapped, bind, sdk_call. simpl.
  unfold chat_request in H. by rewrite H.
Qed.

Lemma calls_made_failed_attempt messages model e a w :
  calls_made (Slept backoff60 a :: failed_attempt settings messages model e ++ w)
    = S (calls_made w).
Proof. reflexivity. Qed.

(** The retry loop around [get_openai_response], when the provider raises
    [K] times and then answers. *)
Lemma retrying_openai_recovers_trace messages model (e : nat → sdk_exception)
    K left a w c cs :
  K ≤ left →
  (∀ k, k < K →
     openai_ChatCompletion_create env (calls_made w + k)
       (chat_request settings messages model) = inl (e k)) →
  openai_ChatCompletion_create env (calls_made w + K)
    (chat_request settings messages model) = inr (c :: cs) →
  retrying (id_Future env) backoff60
    (get_openai_response_wrapped settings env messages model) left a w
    = (inr c,
       Called (chat_request settings messages model)
         :: failed_attempts settings messages model e a K ++ w).
Proof.
  revert e left a w. induction K as [|K IH]; intros e left a w HK Hfail Hok.
  - rewrite Nat.add_0_r in Hok.
    destruct left; simpl;
      by rewrite (get_openai_response_wrapped_returns_trace _ _ _ _ _ Hok).
  - destruct left as [|left]; [lia|]. simpl.
    rewrite (get_openai_response_wrapped_raises_trace messages model w (e 0)).
    2:{ rewrite <-(Nat.add_0_r (calls_made w)). apply Hfail. lia. }
    rewrite (IH (λ i, e (S i)) left (S a)).
    + by rewrite <-app_assoc.
    + lia.
    + intros k Hk. rewrite calls_made_failed_attempt.
      replace (S (calls_made w) + k) with (calls_made w + S k) by lia.
      apply Hfail. lia.
    + rewrite calls_made_failed_attempt.
      by replace (S (calls_made w) + K) with (calls_made w + S K) by lia.
Qed.

(** The same loop when the provider raises at every attempt. *)
Lemma retrying_openai_exhausted_trace messages model (e : nat → sdk_exception)
    left a w :
  (∀ k, k ≤ left →
     openai_ChatCompletion_create env (calls_made w + k)
       (chat_request settings messages model) = inl (e k)) →
  retrying (id_Future env) backoff60
    (get_openai_response_wrapped settings env messages model) left a w
    = (inl (RetryError (a + left) (id_Future env (a + left))
              (OpenAIError (exc_str (e left)))),
       failed_attempt settings messages model (e left)
         ++ failed_attempts settings messages model e a left ++ w).
Proof.
  revert e a w. induction left as [|left IH]; intros e a w Hfail; simpl.
  - rewrite (get_openai_response_wrapped_raises_trace messages model w (e 0)).
    2:{ rewrite <-(Nat.add_0_r (calls_made w)). by apply Hfail. }
    by rewrite Nat.add_0_r.
  - rewrite (get_openai_response_wrapped_raises_trace messages model w (e 0)).
    2:{ rewrite <-(Nat.add_0_r (calls_made w)). apply Hfail. lia. }
    rewrite (IH (λ i, e (S i)) (S a)).
    + replace (S a + left) with (a + S left) by lia.
      f_equal. f_equal. by rewrite <-app_assoc.
    + intros k Hk. rewrite calls_made_failed_attempt.
      replace (S (calls_made w) + k) with (calls_made w + S k) by lia.
      apply Hfail. lia.
Qed.

End CompletionTrace.

Section RetryingQuiet.
Context {A : Type}.
Variables (id_of : nat → N) (wait : wait_random_exponential).
Variables (fn : M A) (r : request).
Hypothesis fn_calls_once : calls_once fn r.

(** A loop whose attempts log nothing logs nothing. *)
Lemma retrying_quiet left a w :
  (∀ k w', k ≤ left → calls_made w' = calls_made w + k →
     log_lines (fn w').2 = log_lines w') →
  log_lines (retrying id_of wait fn left a w).2 = log_lines w.
Proof.
  revert a w. induction left as [|left IH]; intros a w Hq; simpl;
    pose proof (Hq 0 w (Nat.le_0_l _) (eq_sym (Nat.add_0_r _))) as H0;
    destruct (fn w) as [[e|v] w1] eqn:E; simpl in *; try done.
  destruct (calls_once_step fn r fn_calls_once _ _ _ E) as [_ Hc].
  rewrite IH; [done|].
  intros k w' Hk Hw'. apply (Hq (S k)); [lia|].
  rewrite Hw', calls_made_cons_sleep, Hc. lia.
Qed.

End RetryingQuiet.

Section CompletionMore.
Context {row : Type}.
Variable settings : Settings.
Variable env : Env row.

Local Abbreviation attempts := (API_RETRY_ATTEMPTS settings).
Local Abbreviation backoff60 := (WaitRandomExponential 1 60).

(** [get_openai_response_chat] on top of [get_openai_response]: outcome and
    trace. *)
Lemma get_openai_response_chat_trace messages model system_message w :
  get_openai_response_chat settings env messages model system_message w
  = match get_openai_response settings env
            (conversation messages system_message) model w with
    | (inl (RetryError _ fid last), w1) =>
        (inl (APIError (str_RetryError fid last)),
         Logged ERROR "API Retry Error: " (LogText (str_RetryError fid last)) :: w1)
    | res => res
    end.
Proof.
  unfold get_openai_response_chat.
  by destruct (get_openai_response _ _ _ _ _) as [[[]|] w1].
Qed.

(** X1. An invocation of [get_openai_response_chat] makes between 1 and
    [max 1 API_RETRY_ATTEMPTS] attempts, never more, each with the same
    request.  In the order of the trace, every attempt but the last is
    followed by exactly one sleep under
    [wait_random_exponential(min=1, max=60)], recorded with the number of the
    attempt, and the last attempt is followed by none. *)
Theorem completion_attempts_are_bounded messages model system_message w :
  ∃ k, 1 ≤ k ≤ Nat.max 1 attempts
    ∧ timeline (get_openai_response_chat settings env messages model system_message w).2
      = Called (chat_request settings (conversation messages system_message) model)
        :: attempts_with_sleeps backoff60
             (chat_request settings (conversation messages system_message) model)
             1 (k - 1)
        ++ timeline w.
Proof.
  rewrite get_openai_response_chat_trace. unfold get_openai_response, retry.
  destruct (retrying_timeline (id_Future env) backoff60 _ _
              (get_openai_response_wrapped_attempt settings env
                 (conversation messages system_message) model)
              (attempts - 1) 1 w) as (k & Hk & Htl).
  exists k. split; [lia|].
  by destruct (retrying _ _ _ _ _ _) as [[[]|] w1].
Qed.

(** X2. When the provider raises at the first [K] attempts and answers at
    the next, with [K] below the configured maximum, the invocation adds to
    the trace, in time order: for each failed attempt the request, an ERROR
    line with the text of the provider's exception, an INFO line with the
    messages, and then the backoff sleep; at the end the request that was
    answered.  Nothing is logged for the attempt that succeeds. *)
Theorem completion_trace_after_transient_failures
    messages model system_message w (e : nat → sdk_exception) K content choices :
  K < attempts →
  (∀ k, k < K →
     openai_ChatCompletion_create env (calls_made w + k)
       (chat_request settings (conversation messages system_message) model) = inl (e k)) →
  openai_ChatCompletion_create env (calls_made w + K)
    (chat_request settings (conversation messages system_message) model)
    = inr (content :: choices) →
  get_openai_response_chat settings env messages model system_message w
  = (inr content,
     Called (chat_request settings (conversation messages system_message) model)
       :: failed_attempts settings (conversation messages system_message) model e 1 K
       ++ w).
Proof.
  intros HK Hfail Hok. rewrite get_openai_response_chat_trace.
  unfold get_openai_response, retry.
  by rewrite (retrying_openai_recovers_trace settings env _ model e K (attempts - 1) 1 w
                content choices) by (done || lia).
Qed.

(** X3. When the provider raises at every attempt of the budget, the
    invocation ends with [APIError] whose text is [str] of tenacity's
    [RetryError]; the trace holds every failed attempt with its two log lines,
    a sleep between consecutive attempts, and at the end one ERROR line
    "API Retry Error: ..." with the same text. *)
Theorem completion_trace_when_exhausted
    messages model system_message w (e : nat → sdk_exception) :
  (∀ k, k ≤ attempts - 1 →
     openai_ChatCompletion_create env (calls_made w + k)
       (chat_request settings (conversation messages system_message) model) = inl (e k)) →
  let text := str_RetryError (id_Future env (S (attempts - 1)))
                (OpenAIError (exc_str (e (attempts - 1)))) in
  get_openai_response_chat settings env messages model system_message w
  = (inl (APIError text),
     Logged ERROR "API Retry Error: " (LogText text)
       :: failed_attempt settings (conversation messages system_message) model
            (e (attempts - 1))
       ++ failed_attempts settings (conversation messages system_message) model e 1
            (attempts - 1)
       ++ w).
Proof.
  intros Hfail text. rewrite get_openai_response_chat_trace.
  unfold get_openai_response, retry.
  by rewrite (retrying_openai_exhausted_trace settings env _ model e (attempts - 1) 1 w).
Qed.

(** X4. An answer of the provider that holds no choice ends the attempt
    with [IndexError]; the attempt is retried like one in which the provider
    raised, but nothing is logged for it.  When every answer of the budget is
    like that, the caller gets [APIError] for a [RetryError] around the
    [IndexError], and the only log line is the final "API Retry Error". *)
Theorem answer_without_choices_is_retried messages model system_message w :
  (∀ k, k ≤ attempts - 1 →
     openai_ChatCompletion_create env (calls_made w + k)
       (chat_request settings (conversation messages system_message) model) = inr []) →
  let text := str_RetryError (id_Future env (S (attempts - 1)))
                (IndexError "list index out of range") in
  (get_openai_response_chat settings env messages model system_message w).1
    = inl (APIError text)
  ∧ requests (get_openai_response_chat settings env messages model system_message w).2
    = replicate (S (attempts - 1))
        (chat_request settings (conversation messages system_message) model)
      ++ requests w
  ∧ log_lines (get_openai_response_chat settings env messages model system_message w).2
    = (ERROR, "API Retry Error: ", LogText text) :: log_lines w.
Proof.
  intros Hempty text. rewrite get_openai_response_chat_trace.
  unfold get_openai_response, retry.
  set (fn := get_openai_response_wrapped settings env
               (conversation messages system_message) model).
  assert (Hc : calls_once fn
                 (chat_request settings (conversation messages system_message) model))
    by apply get_openai_response_wrapped_calls_once.
  assert (Hrun : ∀ k w', k ≤ attempts - 1 → calls_made w' = calls_made w + k →
            fn w' = (inl (IndexError "list index out of range"),
                     Called (chat_request settings
                               (conversation messages system_message) model) :: w')).
  { intros k w' Hk Hw'. unfold fn, get_openai_response_wrapped, bind, sdk_call. simpl.
    pose proof (Hempty k Hk) as H. unfold chat_request in H.
    by rewrite Hw', H. }
  destruct (retrying_exhausted (id_Future env) backoff60 fn _ Hc
              (λ _, IndexError "list index out of range") (attempts - 1) 1 w)
    as [Hres Hreq].
  { intros k w' Hk Hw'. by rewrite (Hrun k w' Hk Hw'). }
  pose proof (retrying_quiet (id_Future env) backoff60 fn _ Hc (attempts - 1) 1 w) as Hlog.
  destruct (retrying _ _ _ _ _ _) as [res w1]; simpl in *.
  rewrite Hres. simpl. split; [done|]. split; [done|].
  rewrite Hlog; [done|].
  intros k w' Hk Hw'. by rewrite (Hrun k w' Hk Hw').
Qed.

(** X5. Called directly, [get_openai_response] does not raise [APIError]
    when its budget is exhausted: it raises tenacity's [RetryError], and the
    attempt inside it ended with [OpenAIError], a typed API error that carries
    [str] of the provider's exception of the last attempt. *)
Theorem get_openai_response_keeps_the_provider_message
    messages model w (e : nat → sdk_exception) :
  (∀ k, k ≤ attempts - 1 →
     openai_ChatCompletion_create env (calls_made w + k)
       (chat_request settings messages model) = inl (e k)) →
  ∃ last,
    (get_openai_response settings env messages model w).1
      = inl (RetryError (S (attempts - 1)) (id_Future env (S (attempts - 1))) last)
    ∧ last = OpenAIError (exc_str (e (attempts - 1)))
    ∧ is_APIError last = true
    ∧ is_APIError (RetryError (S (attempts - 1)) (id_Future env (S (attempts - 1))) last)
      = false.
Proof.
  intros Hfail. eexists. unfold get_openai_response, retry.
  rewrite (retrying_openai_exhausted_trace settings env _ model e (attempts - 1) 1 w Hfail).
  simpl. by repeat split.
Qed.

(** X6. With a configured maximum of 0 or 1 the first attempt is still made
    and is the only one: one request, no sleep, and a failure of the provider
    is not retried. *)
Theorem single_attempt_when_maximum_is_at_most_one messages model w :
  attempts ≤ 1 →
  requests (get_openai_response settings env messages model w).2
    = chat_request settings messages model :: requests w
  ∧ sleeps (get_openai_response settings env messages model w).2 = sleeps w
  ∧ ∀ e,
      openai_ChatCompletion_create env (calls_made w)
        (chat_request settings messages model) = inl e →
      (get_openai_response settings env messages model w).1
        = inl (RetryError 1 (id_Future env 1) (OpenAIError (exc_str e))).
Proof.
  intros Hn. unfold get_openai_response, retry.
  replace (attempts - 1) with 0 by lia. simpl.
  pose proof (get_openai_response_wrapped_calls_once settings env messages model w) as Hc.
  pose proof (get_openai_response_wrapped_sleepless settings env messages model w) as Hs.
  split; [|split].
  - by destruct (get_openai_response_wrapped _ _ _ _ _) as [[x|v] w1].
  - by destruct (get_openai_response_wrapped _ _ _ _ _) as [[x|v] w1].
  - intros e He.
    by rewrite (get_openai_response_wrapped_raises_trace settings env messages model w e He).
Qed.

(** X7. [get_palm_response] returns [completion.result] of the first
    answer, when the provider raises at the first [K] attempts and then
    answers, with [K] below the configured maximum; [K + 1] requests are
    sent. *)
Theorem palm_response_recovers_after_transient_failures prompt model w K result :
  K < attempts →
  (∀ k, k < K →
     ∃ e, palm_generate_text env (calls_made w + k) (text_request prompt model) = inl e) →
  palm_generate_text env (calls_made w + K) (text_request prompt model) = inr result →
  (get_palm_response settings env prompt model w).1 = inr result
  ∧ requests (get_palm_response settings env prompt model w).2
    = replicate (S K) (text_request prompt model) ++ requests w.
Proof.
  intros HK Hfail Hok. unfold get_palm_response, retry.
  apply (retrying_recovers (id_Future env) backoff60 _ _
           (get_palm_response_wrapped_calls_once env prompt model)
           result K (attempts - 1) 1 w); [lia | |].
  - intros k w' Hk Hw'. destruct (Hfail k Hk) as [e He].
    exists (SdkError e). apply get_palm_response_wrapped_raises. by rewrite Hw'.
  - intros w' Hw'. unfold get_palm_response_wrapped, bind, sdk_call. simpl.
    unfold text_request in Hok. by rewrite Hw', Hok.
Qed.

(** X8. Every request of [get_palm_response] carries the caller's prompt
    and model, temperature 0, at most 1024 output tokens, and the six safety
    settings that the source lists, in its order, each with the threshold
    [BLOCK_NONE].  An invocation makes between 1 and
    [max 1 API_RETRY_ATTEMPTS] attempts with this request; in the order of the
    trace every attempt but the last is followed by exactly one sleep under
    [wait_random_exponential(min=1, max=60)], and the last by none. *)
Theorem palm_requests_are_uniform_and_bounded prompt model w :
  let sent :=
    generate_text model prompt 0 1024
      [(HARM_CATEGORY_DEROGATORY, BLOCK_NONE); (HARM_CATEGORY_TOXICITY, BLOCK_NONE);
       (HARM_CATEGORY_SEXUAL, BLOCK_NONE); (HARM_CATEGORY_VIOLENCE, BLOCK_NONE);
       (HARM_CATEGORY_DANGEROUS, BLOCK_NONE); (HARM_CATEGORY_MEDICAL, BLOCK_NONE)] in
  ∃ k, 1 ≤ k ≤ Nat.max 1 attempts
    ∧ timeline (get_palm_response settings env prompt model w).2
      = Called sent :: attempts_with_sleeps backoff60 sent 1 (k - 1) ++ timeline w.
Proof.
  intros sent. unfold get_palm_response, retry.
  destruct (retrying_timeline (id_Future env) backoff60 _ _
              (get_palm_response_wrapped_attempt env prompt model)
              (attempts - 1) 1 w) as (k & Hk & Htl).
  exists k. split; [lia | exact Htl].
Qed.

End CompletionMore.

(** * Further properties of batch embedding retrieval *)

Section CollectMore.
Context {row : Type}.
Variable result : nat → string → exn + row.
Variable futures : gmap nat string.

(** The loop raises what the first future to fail, in completion order,
    raised. *)
Lemma collect_first_failure pre f t x post (lookup0 : gmap string row) :
  (∀ g, g ∈ pre → ∃ tg v, futures !! g = Some tg ∧ result g tg = inr v) →
  futures !! f = Some t →
  result f t = inl x →
  collect result futures (pre ++ f :: post) lookup0 = inl x.
Proof.
  revert lookup0. induction pre as [|g pre IH]; intros lookup0 Hpre Hf Hx; simpl.
  - by rewrite Hf, Hx.
  - destruct (Hpre g) as (tg & v & -> & ->); [by left|].
    apply IH; [|done|done]. intros h Hh. apply Hpre. by right.
Qed.

(** When the loop returns, every future that completed had a value, and
    its text is a key of the lookup. *)
Lemma collect_returns completed (lookup0 lookup : gmap string row) :
  collect result futures completed lookup0 = inr lookup →
  (∀ t, is_Some (lookup0 !! t) → is_Some (lookup !! t))
  ∧ ∀ f, f ∈ completed →
      ∃ t v, futures !! f = Some t ∧ result f t = inr v ∧ is_Some (lookup !! t).
Proof.
  revert lookup0. induction completed as [|f rest IH]; intros lookup0; simpl.
  - intros [= ->]. split; [done|]. intros f Hf. by apply elem_of_nil in Hf.
  - destruct (futures !! f) as [tf|] eqn:Hf; [|done].
    destruct (result f tf) as [x|v] eqn:Hres; [done|].
    intros Hc. destruct (IH _ Hc) as [Hkeep Hall]. split.
    + intros t Ht. apply Hkeep.
      destruct (decide (tf = t)) as [->|Hne];
        [by rewrite lookup_insert_eq | by rewrite lookup_insert_ne].
    + intros g Hg. apply elem_of_cons in Hg as [->|Hg]; [|by apply Hall].
      exists tf, v. split; [done|]. split; [done|].
      apply Hkeep. by rewrite lookup_insert_eq.
Qed.

(** When the loop raises, it raises what some future raised, or a
    [KeyError] for a future that was never submitted. *)
Lemma collect_raises completed (lookup0 : gmap string row) x :
  collect result futures completed lookup0 = inl x →
  (∃ f, f ∈ completed ∧ futures !! f = None)
  ∨ (∃ f t, f ∈ completed ∧ futures !! f = Some t ∧ result f t = inl x).
Proof.
  revert lookup0. induction completed as [|f rest IH]; intros lookup0; simpl; [done|].
  destruct (futures !! f) as [tf|] eqn:Hf.
  - destruct (result f tf) as [y|v] eqn:Hres.
    + intros [= ->]. right. exists f, tf. by split; [left|].
    + intros Hc. destruct (IH _ Hc) as [(g & Hg & Hn)|(g & t & Hg & Ht & Hx)].
      * left. exists g. by split; [right|].
      * right. exists g, t. by split; [right|].
  - intros _. left. exists f. by split; [left|].
Qed.

End CollectMore.

Lemma rows_of_length {row} (lookup : gmap string row) texts rows :
  rows_of lookup texts = inr rows → length rows = length texts.
Proof.
  revert rows. induction texts as [|t texts IH]; intros rows; simpl.
  - by intros [= <-].
  - destruct (lookup !! t); [|done].
    destruct (rows_of lookup texts) as [x|rs]; [done|].
    intros [= <-]. simpl. f_equal. by apply IH.
Qed.

Lemma rows_of_raises {row} (lookup : gmap string row) texts x :
  rows_of lookup texts = inl x → ∃ t, t ∈ texts ∧ lookup !! t = None.
Proof.
  induction texts as [|t texts IH]; simpl; [done|].
  destruct (lookup !! t) eqn:Ht.
  - destruct (rows_of lookup texts) as [y|rs]; [|done].
    intros [= ->]. destruct IH as (t' & Ht' & Hn); [done|]. exists t'. by split; [right|].
  - intros _. exists t. by split; [left|].
Qed.

Section GatherMore.
Context {row : Type}.
Variable task_env : nat → Env row.
Variable get_single_embedding : Env row → string → string → M row.

Lemma submit_all_lookup texts (f : nat) : submit_all texts !! f = texts !! f.
Proof. unfold submit_all. by rewrite lookup_map_seq_0. Qed.

Lemma gather_length texts model n_jobs completed rows :
  gather task_env get_single_embedding texts model n_jobs completed = inr rows →
  length rows = length texts.
Proof.
  unfold gather. destruct (collect _ _ _ _) as [x|lookup]; [done|].
  apply rows_of_length.
Qed.

Lemma gather_returns texts model n_jobs completed rows :
  completed ≡ₚ seq 0 (length texts) →
  gather task_env get_single_embedding texts model n_jobs completed = inr rows →
  ∀ i t, texts !! i = Some t →
    ∃ v, future_result task_env get_single_embedding model i t = inr v.
Proof.
  intros Hperm. unfold gather.
  destruct (collect _ _ _ _) as [x|lookup] eqn:Hc; [done|]. intros _ i t Hi.
  destruct (collect_returns _ _ _ _ _ Hc) as [_ Hall].
  destruct (Hall i) as (t' & v & Ht' & Hv & _).
  { rewrite Hperm. apply elem_of_seq. apply lookup_lt_Some in Hi. lia. }
  rewrite submit_all_lookup in Ht'. exists v. congruence.
Qed.

Lemma gather_raises texts model n_jobs completed x :
  completed ≡ₚ seq 0 (length texts) →
  gather task_env get_single_embedding texts model n_jobs completed = inl x →
  ∃ j tj, texts !! j = Some tj
          ∧ future_result task_env get_single_embedding model j tj = inl x.
Proof.
  intros Hperm. unfold gather.
  destruct (collect _ _ _ _) as [y|lookup] eqn:Hc.
  - intros [= ->].
    destruct (collect_raises _ _ _ _ _ Hc) as [(f & Hf & Hn)|(f & t & Hf & Ht & Hx)].
    + rewrite Hperm in Hf. apply elem_of_seq in Hf. rewrite submit_all_lookup in Hn.
      apply lookup_ge_None in Hn. lia.
    + rewrite submit_all_lookup in Ht. by exists f, t.
  - intros Hr. destruct (rows_of_raises _ _ _ Hr) as (t & Ht & Hn).
    apply list_elem_of_lookup in Ht as [i Hi].
    destruct (collect_returns _ _ _ _ _ Hc) as [_ Hall].
    destruct (Hall i) as (t' & v & Ht' & _ & Hsome).
    { rewrite Hperm. apply elem_of_seq. apply lookup_lt_Some in Hi. lia. }
    rewrite submit_all_lookup in Ht'. assert (t' = t) as -> by congruence.
    rewrite Hn in Hsome. by destruct Hsome.
Qed.

Lemma gather_first_failure texts model n_jobs pre f t x post :
  (∀ g, g ∈ pre →
     ∃ tg v, texts !! g = Some tg
             ∧ future_result task_env get_single_embedding model g tg = inr v) →
  texts !! f = Some t →
  future_result task_env get_single_embedding model f t = inl x →
  gather task_env get_single_embedding texts model n_jobs (pre ++ f :: post) = inl x.
Proof.
  intros Hpre Hf Hx. unfold gather.
  rewrite (collect_first_failure _ (submit_all texts) pre f t x); [done| |by rewrite submit_all_lookup|done].
  intros g Hg. destruct (Hpre g Hg) as (tg & v & Htg & Hv).
  exists tg, v. by rewrite submit_all_lookup.
Qed.

(** All fetches end with a value, for distinct texts: the rows are the
    values, in input order. *)
Lemma gather_distinct texts model n_jobs completed (vals : nat → row) :
  NoDup texts →
  completed ≡ₚ seq 0 (length texts) →
  (∀ i t, texts !! i = Some t →
     future_result task_env get_single_embedding model i t = inr (vals i)) →
  gather task_env get_single_embedding texts model n_jobs completed
    = inr (vals <$> seq 0 (length texts)).
Proof.
  intros Hnodup Hperm Hdone.
  destruct (gather_all_done task_env get_single_embedding texts model n_jobs completed
              vals Hperm Hdone) as (rows & -> & Hlen & Hrows).
  f_equal. apply list_eq. intros i. rewrite list_lookup_fmap.
  destruct (decide (i < length texts)) as [Hi|Hi].
  - destruct (lookup_lt_is_Some_2 texts i Hi) as [t Ht].
    destruct (Hrows i t Ht) as (j & _ & Hj & ->).
    rewrite (NoDup_lookup texts i j t Hnodup Ht Hj).
    rewrite lookup_seq_lt by (apply lookup_lt_Some in Hj; lia). done.
  - rewrite lookup_ge_None_2 by lia. rewrite lookup_seq_ge by lia. done.
Qed.

End GatherMore.

Section EmbeddingMore.
Context {row : Type}.
Variable task_env : nat → Env row.

Local Abbreviation backoff20 := (WaitRandomExponential 1 20).

Lemma openai_get_single_embedding_recovers (env : Env row) text model w K d ds :
  K < 6 →
  (∀ k, k < K →
     ∃ e, openai_Embedding_create env (calls_made w + k) (Embedding_create [text] model)
          = inl e) →
  openai_Embedding_create env (calls_made w + K) (Embedding_create [text] model)
    = inr (d :: ds) →
  (openai_get_single_embedding env text model w).1 = inr d
  ∧ requests (openai_get_single_embedding env text model w).2
    = replicate (S K) (Embedding_create [text] model) ++ requests w.
Proof.
  intros HK Hfail Hok. unfold openai_get_single_embedding, retry. change (6 - 1) with 5.
  apply retrying_recovers; [| lia | |].
  - intros w'. unfold bind, sdk_call. simpl.
    destruct (openai_Embedding_create env (calls_made w') _) as [x|[|d' ds']];
      reflexivity.
  - intros k w' Hk Hw'. destruct (Hfail k Hk) as [e He].
    exists (SdkError e). unfold bind, sdk_call. simpl. by rewrite Hw', He.
  - intros w' Hw'. unfold bind, sdk_call. simpl. by rewrite Hw', Hok.
Qed.

Lemma palm_get_single_embedding_calls_once (env : Env row) text model :
  calls_once
    (r ←← sdk_call (palm_generate_embeddings env) (generate_embeddings model text) ;;
     match r with
     | inl e => raise (SdkError e)
     | inr d => ret d
     end)
    (generate_embeddings model text).
Proof.
  intros w'. unfold bind, sdk_call. simpl.
  destruct (palm_generate_embeddings env _ _) as [x|d]; reflexivity.
Qed.

Lemma palm_get_single_embedding_sleepless (env : Env row) text model :
  sleepless
    (r ←← sdk_call (palm_generate_embeddings env) (generate_embeddings model text) ;;
     match r with
     | inl e => raise (SdkError e)
     | inr d => ret d
     end).
Proof.
  intros w'. unfold bind, sdk_call. simpl.
  destruct (palm_generate_embeddings env _ _) as [x|d]; reflexivity.
Qed.

Lemma palm_get_single_embedding_recovers (env : Env row) text model w K d :
  K < 6 →
  (∀ k, k < K →
     ∃ e, palm_generate_embeddings env (calls_made w + k) (generate_embeddings model text)
          = inl e) →
  palm_generate_embeddings env (calls_made w + K) (generate_embeddings model text)
    = inr d →
  (palm_get_single_embedding env text model w).1 = inr d
  ∧ requests (palm_get_single_embedding env text model w).2
    = replicate (S K) (generate_embeddings model text) ++ requests w.
Proof.
  intros HK Hfail Hok. unfold palm_get_single_embedding, retry. change (6 - 1) with 5.
  apply retrying_recovers; [apply palm_get_single_embedding_calls_once | lia | |].
  - intros k w' Hk Hw'. destruct (Hfail k Hk) as [e He].
    exists (SdkError e). unfold bind, sdk_call. simpl. by rewrite Hw', He.
  - intros w' Hw'. unfold bind, sdk_call. simpl. by rewrite Hw', Hok.
Qed.

Lemma palm_get_single_embedding_exhausted (env : Env row) text model w
    (e : nat → sdk_exception) :
  (∀ k, k < 6 →
     palm_generate_embeddings env (calls_made w + k) (generate_embeddings model text)
       = inl (e k)) →
  (palm_get_single_embedding env text model w).1
    = inl (RetryError 6 (id_Future env 6) (SdkError (e 5)))
  ∧ requests (palm_get_single_embedding env text model w).2
    = replicate 6 (generate_embeddings model text) ++ requests w.
Proof.
  intros Hfail. unfold palm_get_single_embedding, retry. change (6 - 1) with 5.
  apply (retrying_exhausted (id_Future env) backoff20 _ _
           (palm_get_single_embedding_calls_once env text model)
           (λ k, SdkError (e k)) 5 1 w).
  intros k w' Hk Hw'. unfold bind, sdk_call. simpl. rewrite Hw', Hfail by lia. done.
Qed.

Lemma palm_future_raises model i t x :
  future_result task_env palm_get_single_embedding model i t = inl x →
  ∃ last, x = RetryError 6 (id_Future (task_env i) 6) last.
Proof.
  unfold future_result, palm_get_single_embedding, retry. intros H.
  by apply retrying_raises in H.
Qed.

(** X9. Whenever a batch call returns, for whatever order of completion, it
    returns exactly one row per input text. *)
Theorem batch_returns_one_row_per_text texts model n_jobs completed rows :
  (get_openai_embeddings task_env texts model n_jobs completed = inr rows →
   length rows = length texts)
  ∧ (get_palm_embeddings task_env texts model n_jobs completed = inr rows →
     length rows = length texts).
Proof. split; apply gather_length. Qed.

(** X10. A batch call returns rows only if every fetch ended with a value:
    there is no result in which some text has no fetched row. *)
Theorem batch_returns_only_if_every_fetch_returned
    texts model n_jobs completed rows :
  completed ≡ₚ seq 0 (length texts) →
  (get_openai_embeddings task_env texts model n_jobs completed = inr rows →
   ∀ i t, texts !! i = Some t →
     ∃ v, future_result task_env openai_get_single_embedding model i t = inr v)
  ∧ (get_palm_embeddings task_env texts model n_jobs completed = inr rows →
     ∀ i t, texts !! i = Some t →
       ∃ v, future_result task_env palm_get_single_embedding model i t = inr v).
Proof. intros Hperm. split; by apply gather_returns. Qed.

(** X11. When fetches fail, the batch raises the exception of the future
    that is the first to fail in completion order; the futures that complete
    after it are not looked at. *)
Theorem batch_raises_the_first_failure_in_completion_order
    texts model n_jobs pre f t x post :
  (∀ g, g ∈ pre →
     ∃ tg v, texts !! g = Some tg
             ∧ future_result task_env openai_get_single_embedding model g tg = inr v) →
  texts !! f = Some t →
  future_result task_env openai_get_single_embedding model f t = inl x →
  get_openai_embeddings task_env texts model n_jobs (pre ++ f :: post) = inl x.
Proof. apply gather_first_failure. Qed.

(** X12. The two dict lookups of a batch call, [futures[future]] and
    [embeddings_lookup[text]], never miss: when every submitted future is
    handed out by [as_completed] once, a batch call does not raise
    [KeyError], for any texts, duplicates included, and whether fetches fail
    or not. *)
Theorem batch_lookups_never_miss texts model n_jobs completed key :
  completed ≡ₚ seq 0 (length texts) →
  get_openai_embeddings task_env texts model n_jobs completed ≠ inl (KeyError key)
  ∧ get_palm_embeddings task_env texts model n_jobs completed ≠ inl (KeyError key).
Proof.
  intros Hperm. split; intros Hx.
  - destruct (gather_raises task_env _ texts model n_jobs completed _ Hperm Hx)
      as (j & tj & Hj & Hf).
    by destruct (openai_future_raises task_env model j tj _ Hf) as [last ?].
  - destruct (gather_raises task_env _ texts model n_jobs completed _ Hperm Hx)
      as (j & tj & Hj & Hf).
    by destruct (palm_future_raises model j tj _ Hf) as [last ?].
Qed.

(** X13. From the provider to the rows: for distinct texts, when for each
    text the provider raises at fewer than 6 calls of its fetch and then
    answers, [get_openai_embeddings] returns, in input order, the [embedding]
    of the first entry of [data] of each answer, for any order of
    completion. *)
Theorem openai_batch_returns_the_first_data_entries
    texts model n_jobs completed (d : nat → row) :
  NoDup texts →
  completed ≡ₚ seq 0 (length texts) →
  (∀ i t, texts !! i = Some t →
     ∃ K ds, K < 6
       ∧ (∀ k, k < K →
            ∃ e, openai_Embedding_create (task_env i) k (Embedding_create [t] model)
                 = inl e)
       ∧ openai_Embedding_create (task_env i) K (Embedding_create [t] model)
         = inr (d i :: ds)) →
  get_openai_embeddings task_env texts model n_jobs completed
    = inr (d <$> seq 0 (length texts)).
Proof.
  intros Hnodup Hperm Hanswers. apply gather_distinct; [done|done|].
  intros i t Hi. destruct (Hanswers i t Hi) as (K & ds & HK & Hfail & Hok).
  unfold future_result.
  by destruct (openai_get_single_embedding_recovers (task_env i) t model [] K (d i) ds)
    as [-> _].
Qed.

(** X14. The same for [get_palm_embeddings], whose fetch keeps the whole
    answer of [palm.generate_embeddings] as the row. *)
Theorem palm_batch_returns_the_answers
    texts model n_jobs completed (d : nat → row) :
  NoDup texts →
  completed ≡ₚ seq 0 (length texts) →
  (∀ i t, texts !! i = Some t →
     ∃ K, K < 6
       ∧ (∀ k, k < K →
            ∃ e, palm_generate_embeddings (task_env i) k (generate_embeddings model t)
                 = inl e)
       ∧ palm_generate_embeddings (task_env i) K (generate_embeddings model t)
         = inr (d i)) →
  get_palm_embeddings task_env texts model n_jobs completed
    = inr (d <$> seq 0 (length texts)).
Proof.
  intros Hnodup Hperm Hanswers. apply gather_distinct; [done|done|].
  intros i t Hi. destruct (Hanswers i t Hi) as (K & HK & Hfail & Hok).
  unfold future_result.
  by destruct (palm_get_single_embedding_recovers (task_env i) t model [] K (d i))
    as [-> _].
Qed.

(** X15. [get_palm_embeddings]: when the provider raises at all 6 attempts
    of the fetch of some text, that fetch ends with [RetryError] around the
    provider's exception of the sixth attempt, after 6 requests, and the batch
    raises the [RetryError] of a fetch that failed, with no rows. *)
Theorem palm_exhausted_fetch_aborts_the_batch
    texts model n_jobs completed i text (e : nat → sdk_exception) :
  completed ≡ₚ seq 0 (length texts) →
  texts !! i = Some text →
  (∀ k, k < 6 →
     palm_generate_embeddings (task_env i) k (generate_embeddings model text)
       = inl (e k)) →
  (palm_get_single_embedding (task_env i) text model []).1
    = inl (RetryError 6 (id_Future (task_env i) 6) (SdkError (e 5)))
  ∧ requests (palm_get_single_embedding (task_env i) text model []).2
    = replicate 6 (generate_embeddings model text)
  ∧ ∃ j tj last,
      texts !! j = Some tj
      ∧ future_result task_env palm_get_single_embedding model j tj
        = inl (RetryError 6 (id_Future (task_env j) 6) last)
      ∧ get_palm_embeddings task_env texts model n_jobs completed
        = inl (RetryError 6 (id_Future (task_env j) 6) last).
Proof.
  intros Hperm Hi Hfail.
  destruct (palm_get_single_embedding_exhausted (task_env i) text model [] e)
    as (Hres & Hreq); [done|].
  rewrite app_nil_r in Hreq.
  split; [exact Hres|]. split; [exact Hreq|].
  destruct (gather_aborts task_env palm_get_single_embedding texts model n_jobs
              completed i text _ Hperm Hi Hres) as (j & tj & y & Hj & Hy & Hg).
  destruct (palm_future_raises model j tj y Hy) as [last ->].
  by exists j, tj, last.
Qed.

(** X16. [get_palm_embeddings] with duplicate texts: one row per position,
    and the row at a position is the value of the future that was the last,
    in completion order, to resolve the text at that position. *)
Theorem palm_duplicate_texts_share_the_last_resolved_row
    texts model n_jobs completed (vals : nat → row) :
  completed ≡ₚ seq 0 (length texts) →
  (∀ i t, texts !! i = Some t →
     future_result task_env palm_get_single_embedding model i t = inr (vals i)) →
  ∃ rows,
    get_palm_embeddings task_env texts model n_jobs completed = inr rows
    ∧ length rows = length texts
    ∧ ∀ i t, texts !! i = Some t →
        ∃ j, last_resolved texts completed t = Some j
             ∧ texts !! j = Some t
             ∧ rows !! i = Some (vals j).
Proof. apply gather_all_done. Qed.

Lemma each_fetch_sleeps (env : Env row) text model w :
  (∃ k, sleeps (openai_get_single_embedding env text model w).2
        = backoffs backoff20 1 k ++ sleeps w)
  ∧ (∃ k, sleeps (palm_get_single_embedding env text model w).2
          = backoffs backoff20 1 k ++ sleeps w).
Proof.
  split.
  - unfold openai_get_single_embedding, retry. change (6 - 1) with 5.
    match goal with |- context [retrying _ _ ?f _ _ _] => set (fn := f) end.
    destruct (retrying_requests_sleeps (id_Future env) backoff20 fn
                (Embedding_create [text] model)) with (left := 5) (a := 1) (w := w)
      as (k & _ & _ & Hsl); [| |by exists (k - 1)];
      intros w'; unfold fn, bind, sdk_call; simpl;
      destruct (openai_Embedding_create env _ _) as [x|[|d ds]]; reflexivity.
  - unfold palm_get_single_embedding, retry. change (6 - 1) with 5.
    destruct (retrying_requests_sleeps (id_Future env) backoff20 _ _
                (palm_get_single_embedding_calls_once env text model)
                (palm_get_single_embedding_sleepless env text model) 5 1 w)
      as (k & _ & _ & Hsl).
    by exists (k - 1).
Qed.

(** X17. A fetch makes between 1 and 6 attempts, each with a request for
    its one text and the given model ([input = [text]] for OpenAI).  In the
    order of the trace, every attempt but the last is followed by exactly one
    sleep under [wait_random_exponential(min=1, max=20)], recorded with the
    number of the attempt, and the last attempt is followed by none. *)
Theorem each_fetch_sends_its_own_text (env : Env row) text model w :
  (∃ k, 1 ≤ k ≤ 6
     ∧ timeline (openai_get_single_embedding env text model w).2
       = Called (Embedding_create [text] model)
         :: attempts_with_sleeps backoff20 (Embedding_create [text] model) 1 (k - 1)
         ++ timeline w)
  ∧ (∃ k, 1 ≤ k ≤ 6
       ∧ timeline (palm_get_single_embedding env text model w).2
         = Called (generate_embeddings model text)
           :: attempts_with_sleeps backoff20 (generate_embeddings model text) 1 (k - 1)
           ++ timeline w).
Proof.
  split.
  - unfold openai_get_single_embedding, retry. change (6 - 1) with 5.
    apply retrying_timeline. intros w'. unfold bind, sdk_call. simpl.
    destruct (openai_Embedding_create env _ _) as [x|[|d ds]]; reflexivity.
  - unfold palm_get_single_embedding, retry. change (6 - 1) with 5.
    apply retrying_timeline. intros w'. unfold bind, sdk_call. simpl.
    destruct (palm_generate_embeddings env _ _) as [x|d]; reflexivity.
Qed.

End EmbeddingMore.

(** * The further properties at sample inputs *)

(** X2 at a provider that raises twice and then answers. *)
Lemma completion_trace_after_transient_failures_witness :
  get_openai_response_chat sample_settings (env_flaky 2 0) (Prompt "Sort these topics")
    "gpt-3.5-turbo" default_system_message []
  = (inr (Some "Animals > Birds"),
     Called (chat_request sample_settings
               (conversation (Prompt "Sort these topics") default_system_message)
               "gpt-3.5-turbo")
       :: failed_attempts sample_settings
            (conversation (Prompt "Sort these topics") default_system_message)
            "gpt-3.5-turbo" (λ _, rate_limit) 1 2
       ++ []).
Proof.
  apply (completion_trace_after_transient_failures sample_settings (env_flaky 2 0)
           (Prompt "Sort these topics") "gpt-3.5-turbo" default_system_message []
           (λ _, rate_limit) 2 (Some "Animals > Birds") []).
  - simpl; lia.
  - intros k Hk. destruct k as [|[|k]]; [reflexivity | reflexivity | lia].
  - reflexivity.
Defined.

(** X3 at a provider that is down. *)
Lemma completion_trace_when_exhausted_witness :
  log_lines
    (get_openai_response_chat sample_settings env_down (Prompt "Sort these topics")
       "gpt-3.5-turbo" default_system_message []).2
  = [(ERROR, "API Retry Error: ",
      LogText "RetryError[<Future at 0x7f3a03 state=finished raised OpenAIError>]");
     (INFO, "Messages: ",
      LogMessages (conversation (Prompt "Sort these topics") default_system_message));
     (ERROR, "OpenAI API Error: ", LogText "Rate limit reached for requests");
     (INFO, "Messages: ",
      LogMessages (conversation (Prompt "Sort these topics") default_system_message));
     (ERROR, "OpenAI API Error: ", LogText "Rate limit reached for requests");
     (INFO, "Messages: ",
      LogMessages (conversation (Prompt "Sort these topics") default_system_message));
     (ERROR, "OpenAI API Error: ", LogText "Rate limit reached for requests")].
Proof.
  rewrite (completion_trace_when_exhausted sample_settings env_down
             (Prompt "Sort these topics") "gpt-3.5-turbo" default_system_message []
             (λ _, rate_limit)).
  - reflexivity.
  - intros k _. reflexivity.
Defined.

(** X4 at a provider whose answers hold no choice. *)
Lemma answer_without_choices_is_retried_witness :
  (get_openai_response_chat sample_settings env_no_choice (Prompt "Sort these topics")
     "gpt-3.5-turbo" default_system_message []).1
    = inl (APIError "RetryError[<Future at 0x7f3a03 state=finished raised IndexError>]")
  ∧ requests
      (get_openai_response_chat sample_settings env_no_choice (Prompt "Sort these topics")
         "gpt-3.5-turbo" default_system_message []).2
    = replicate 3
        (chat_request sample_settings
           (conversation (Prompt "Sort these topics") default_system_message)
           "gpt-3.5-turbo")
      ++ requests []
  ∧ log_lines
      (get_openai_response_chat sample_settings env_no_choice (Prompt "Sort these topics")
         "gpt-3.5-turbo" default_system_message []).2
    = (ERROR, "API Retry Error: ",
       LogText "RetryError[<Future at 0x7f3a03 state=finished raised IndexError>]")
      :: log_lines [].
Proof.
  apply (answer_without_choices_is_retried sample_settings env_no_choice
           (Prompt "Sort these topics") "gpt-3.5-turbo" default_system_message []).
  intros k _. reflexivity.
Defined.

(** X5 at a provider that is down. *)
Lemma get_openai_response_keeps_the_provider_message_witness :
  ∃ last,
    (get_openai_response sample_settings env_down
       [PDict [("role", PStr "user"); ("content", PStr "Sort these topics")]]
       "gpt-3.5-turbo" []).1
      = inl (RetryError 3 0x7f3a03 last)
    ∧ last = OpenAIError "Rate limit reached for requests"
    ∧ is_APIError last = true
    ∧ is_APIError (RetryError 3 0x7f3a03 last) = false.
Proof.
  apply (get_openai_response_keeps_the_provider_message sample_settings env_down
           [PDict [("role", PStr "user"); ("content", PStr "Sort these topics")]]
           "gpt-3.5-turbo" [] (λ _, rate_limit)).
  intros k _. reflexivity.
Defined.

(** X6 with the maximum set to 0, at a provider that is down. *)
Lemma single_attempt_when_maximum_is_at_most_one_witness :
  API_RETRY_ATTEMPTS sample_settings_no_retry ≤ 1
  ∧ requests
      (get_openai_response sample_settings_no_retry env_down
         [PDict [("role", PStr "user"); ("content", PStr "Sort these topics")]]
         "gpt-3.5-turbo" []).2
    = [chat_request sample_settings_no_retry
         [PDict [("role", PStr "user"); ("content", PStr "Sort these topics")]]
         "gpt-3.5-turbo"]
  ∧ (get_openai_response sample_settings_no_retry env_down
       [PDict [("role", PStr "user"); ("content", PStr "Sort these topics")]]
       "gpt-3.5-turbo" []).1
    = inl (RetryError 1 0x7f3a01 (OpenAIError "Rate limit reached for requests")).
Proof.
  split; [simpl; lia|].
  destruct (single_attempt_when_maximum_is_at_most_one sample_settings_no_retry env_down
              [PDict [("role", PStr "user"); ("content", PStr "Sort these topics")]]
              "gpt-3.5-turbo" []) as (Hreq & _ & Hres); [simpl; lia|].
  split; [exact Hreq|]. apply (Hres rate_limit). reflexivity.
Defined.

(** X7 at a provider that raises twice and then answers. *)
Lemma palm_response_recovers_after_transient_failures_witness :
  (get_palm_response sample_settings (env_flaky 2 0) "Sort these topics"
     "models/text-bison-001" []).1 = inr (Some "Animals > Birds")
  ∧ requests
      (get_palm_response sample_settings (env_flaky 2 0) "Sort these topics"
         "models/text-bison-001" []).2
    = replicate 3 (text_request "Sort these topics" "models/text-bison-001")
      ++ requests [].
Proof.
  apply (palm_response_recovers_after_transient_failures sample_settings (env_flaky 2 0)
           "Sort these topics" "models/text-bison-001" [] 2 (Some "Animals > Birds")).
  - simpl; lia.
  - intros k Hk. exists rate_limit.
    destruct k as [|[|k]]; [reflexivity | reflexivity | lia].
  - reflexivity.
Defined.

(** X9 at three texts with a duplicate. *)
Lemma batch_returns_one_row_per_text_witness :
  length [[0; 0; 0]; [1; 1; 1]; [0; 0; 0]]%Z = length ["a"; "b"; "a"].
Proof.
  apply (proj1 (batch_returns_one_row_per_text env_stub ["a"; "b"; "a"]
                  "text-embedding-ada-002" 4 [2; 1; 0]
                  [[0; 0; 0]; [1; 1; 1]; [0; 0; 0]]%Z)).
  reflexivity.
Defined.

(** X10 at the same batch. *)
Lemma batch_returns_only_if_every_fetch_returned_witness :
  ∃ v, future_result env_stub openai_get_single_embedding
         "text-embedding-ada-002" 2 "a" = inr v.
Proof.
  refine (proj1 (batch_returns_only_if_every_fetch_returned env_stub ["a"; "b"; "a"]
                   "text-embedding-ada-002" 4 [2; 1; 0]
                   [[0; 0; 0]; [1; 1; 1]; [0; 0; 0]]%Z
                   ltac:(apply (bool_decide_unpack _); vm_compute; exact I))
            _ 2 "a" _); reflexivity.
Defined.

(** X11 at a batch in which the fetch of the second text fails, and
    completes after the third and before the first. *)
Lemma batch_raises_the_first_failure_in_completion_order_witness :
  get_openai_embeddings env_one_down ["a"; "b"; "c"] "text-embedding-ada-002" 4
    ([2] ++ 1 :: [0])
  = inl (RetryError 6 0x7f3a06 (SdkError rate_limit)).
Proof.
  apply (batch_raises_the_first_failure_in_completion_order env_one_down
           ["a"; "b"; "c"] "text-embedding-ada-002" 4 [2] 1 "b").
  - intros g Hg. apply list_elem_of_singleton in Hg as ->.
    exists "c", [2; 2; 2]%Z. split; reflexivity.
  - reflexivity.
  - reflexivity.
Defined.

(** X12 at the same batch, in which a fetch fails. *)
Lemma batch_lookups_never_miss_witness :
  get_openai_embeddings env_one_down ["a"; "b"; "c"] "text-embedding-ada-002" 4 [2; 1; 0]
    ≠ inl (KeyError (KText "b"))
  ∧ get_palm_embeddings env_one_down ["a"; "b"; "c"] "text-embedding-ada-002" 4 [2; 1; 0]
    ≠ inl (KeyError (KText "b")).
Proof.
  apply (batch_lookups_never_miss env_one_down ["a"; "b"; "c"]
           "text-embedding-ada-002" 4 [2; 1; 0] (KText "b")).
  apply (bool_decide_unpack _); vm_compute; exact I.
Defined.

(** X13 at worker threads of which the [i]-th is answered after [i]
    failures. *)
Lemma openai_batch_returns_the_first_data_entries_witness :
  get_openai_embeddings env_slow_start ["a"; "b"; "c"] "text-embedding-ada-002" 4
    [1; 2; 0]
  = inr ((λ i, [Z.of_nat i; Z.of_nat i; Z.of_nat i]) <$> seq 0 3).
Proof.
  apply (openai_batch_returns_the_first_data_entries env_slow_start ["a"; "b"; "c"]
           "text-embedding-ada-002" 4 [1; 2; 0]
           (λ i, [Z.of_nat i; Z.of_nat i; Z.of_nat i])).
  - apply (bool_decide_unpack _); vm_compute; exact I.
  - apply (bool_decide_unpack _); vm_compute; exact I.
  - intros [|[|[|i]]] t Ht; simpl in Ht; try discriminate.
    + exists 0, []. split; [lia|]. split; [intros k Hk; lia | reflexivity].
    + exists 1, []. split; [lia|]. split; [|reflexivity].
      intros k Hk. exists rate_limit. destruct k; [reflexivity | lia].
    + exists 2, []. split; [lia|]. split; [|reflexivity].
      intros k Hk. exists rate_limit. destruct k as [|[|k]]; [reflexivity | reflexivity | lia].
Defined.

(** X14 at the same worker threads. *)
Lemma palm_batch_returns_the_answers_witness :
  get_palm_embeddings env_slow_start ["a"; "b"; "c"] "models/embedding-gecko-001" 4
    [1; 2; 0]
  = inr ((λ i, [Z.of_nat i; Z.of_nat i; Z.of_nat i]) <$> seq 0 3).
Proof.
  apply (palm_batch_returns_the_answers env_slow_start ["a"; "b"; "c"]
           "models/embedding-gecko-001" 4 [1; 2; 0]
           (λ i, [Z.of_nat i; Z.of_nat i; Z.of_nat i])).
  - apply (bool_decide_unpack _); vm_compute; exact I.
  - apply (bool_decide_unpack _); vm_compute; exact I.
  - intros [|[|[|i]]] t Ht; simpl in Ht; try discriminate.
    + exists 0. split; [lia|]. split; [intros k Hk; lia | reflexivity].
    + exists 1. split; [lia|]. split; [|reflexivity].
      intros k Hk. exists rate_limit. destruct k; [reflexivity | lia].
    + exists 2. split; [lia|]. split; [|reflexivity].
      intros k Hk. exists rate_limit. destruct k as [|[|k]]; [reflexivity | reflexivity | lia].
Defined.

(** X15 at a batch of one text and a provider that is down. *)
Lemma palm_exhausted_fetch_aborts_the_batch_witness :
  (palm_get_single_embedding env_down "a" "models/embedding-gecko-001" []).1
    = inl (RetryError 6 (id_Future env_down 6) (SdkError rate_limit))
  ∧ requests (palm_get_single_embedding env_down "a" "models/embedding-gecko-001" []).2
    = replicate 6 (generate_embeddings "models/embedding-gecko-001" "a")
  ∧ ∃ j tj last,
      ["a"] !! j = Some tj
      ∧ future_result (λ _, env_down) palm_get_single_embedding
          "models/embedding-gecko-001" j tj
        = inl (RetryError 6 (id_Future env_down 6) last)
      ∧ get_palm_embeddings (λ _, env_down) ["a"] "models/embedding-gecko-001" 1 [0]
        = inl (RetryError 6 (id_Future env_down 6) last).
Proof.
  apply (palm_exhausted_fetch_aborts_the_batch (λ _, env_down) ["a"]
           "models/embedding-gecko-001" 1 [0] 0 "a" (λ _, rate_limit)).
  - apply (bool_decide_unpack _); vm_compute; exact I.
  - reflexivity.
  - intros k _. reflexivity.
Defined.

(** X16 at texts with a duplicate. *)
Lemma palm_duplicate_texts_share_the_last_resolved_row_witness :
  ∃ rows,
    get_palm_embeddings env_stub ["a"; "b"; "a"] "models/embedding-gecko-001" 4 [2; 1; 0]
      = inr rows
    ∧ length rows = 3
    ∧ ∀ i t, ["a"; "b"; "a"] !! i = Some t →
        ∃ j, last_resolved ["a"; "b"; "a"] [2; 1; 0] t = Some j
             ∧ ["a"; "b"; "a"] !! j = Some t
             ∧ rows !! i = Some [Z.of_nat j; Z.of_nat j; Z.of_nat j].
Proof.
  apply (palm_duplicate_texts_share_the_last_resolved_row env_stub ["a"; "b"; "a"]
           "models/embedding-gecko-001" 4 [2; 1; 0]
           (λ i, [Z.of_nat i; Z.of_nat i; Z.of_nat i])).
  - apply (bool_decide_unpack _); vm_compute; exact I.
  - intros [|[|[|i]]] t Ht; simpl in Ht; try discriminate; reflexivity.
Defined.

(** * The seconds of a backoff sleep *)

Lemma backoffs_elem wait a0 k p a :
  (p, a) ∈ backoffs wait a0 k → p = wait ∧ a0 ≤ a < a0 + k.
Proof.
  revert a0. induction k as [|k IH]; intros a0; simpl.
  - intros H. by apply elem_of_nil in H.
  - rewrite elem_of_app, list_elem_of_singleton. intros [H|[= -> ->]].
    + apply IH in H as [-> H]. split; [done | lia].
    + split; [done | lia].
Qed.

Lemma wait_exponential_bounds p a :
  wait_min p ≤ wait_max p →
  wait_min p ≤ wait_exponential p a ≤ wait_max p.
Proof. unfold wait_exponential. lia. Qed.

(** Whatever the draw, the seconds lie between the policy's [min] and its
    [max], when [min] is not above [max]. *)
Lemma wait_seconds_bounds p a (u : Q) :
  wait_min p ≤ wait_max p →
  (0 <= u <= 1)%Q →
  (inject_Z (Z.of_nat (wait_min p)) <= wait_seconds p a u
     <= inject_Z (Z.of_nat (wait_max p)))%Q
  ∧ (0 <= wait_seconds p a u)%Q.
Proof.
  intros Hp [Hu0 Hu1]. destruct (wait_exponential_bounds p a Hp) as [Hlo Hhi].
  unfold wait_seconds, random_uniform.
  assert (H0 : (0 <= inject_Z (Z.of_nat (wait_min p)))%Q).
  { change 0%Q with (inject_Z 0). rewrite <-Zle_Qle. lia. }
  assert (H1 : (inject_Z (Z.of_nat (wait_min p))
                <= inject_Z (Z.of_nat (wait_exponential p a)))%Q).
  { rewrite <-Zle_Qle. lia. }
  assert (H2 : (inject_Z (Z.of_nat (wait_exponential p a))
                <= inject_Z (Z.of_nat (wait_max p)))%Q).
  { rewrite <-Zle_Qle. lia. }
  set (lo := inject_Z (Z.of_nat (wait_min p))) in *.
  set (high := inject_Z (Z.of_nat (wait_exponential p a))) in *.
  set (top := inject_Z (Z.of_nat (wait_max p))) in *.
  nra.
Qed.

Section WaitProperties.
Context {row : Type}.
Variable settings : Settings.
Variable env : Env row.

Lemma backoff_bounds_1_to (top : nat) k p a (u : Q) :
  1 ≤ top →
  (0 <= u <= 1)%Q →
  (p, a) ∈ backoffs (WaitRandomExponential 1 top) 1 k →
  1 ≤ a
  ∧ (1 <= wait_seconds p a u <= inject_Z (Z.of_nat top))%Q
  ∧ (0 <= wait_seconds p a u)%Q.
Proof.
  intros Htop Hu Hin. apply backoffs_elem in Hin as [-> Ha].
  split; [lia|]. by apply (wait_seconds_bounds (WaitRandomExponential 1 top) a u).
Qed.

(** C8. Every backoff sleep of a wrapped operation follows an attempt
    numbered from 1 and is taken under the policy the decorator names; the
    seconds it lasts, whatever the random draw, lie between the policy's
    bounds, 1 and 60 for the completion calls and 1 and 20 for the embedding
    fetches, and so are never negative. *)
Theorem backoff_waits_within_bounds
    messages model system_message prompt palm_model text embedding_model w (u : Q) :
  (0 <= u <= 1)%Q →
  (∃ k,
     sleeps (get_openai_response_chat settings env messages model system_message w).2
       = backoffs (WaitRandomExponential 1 60) 1 k ++ sleeps w
     ∧ ∀ p a, (p, a) ∈ backoffs (WaitRandomExponential 1 60) 1 k →
         1 ≤ a ∧ (1 <= wait_seconds p a u <= 60)%Q ∧ (0 <= wait_seconds p a u)%Q)
  ∧ (∃ k,
       sleeps (get_palm_response settings env prompt palm_model w).2
         = backoffs (WaitRandomExponential 1 60) 1 k ++ sleeps w
       ∧ ∀ p a, (p, a) ∈ backoffs (WaitRandomExponential 1 60) 1 k →
           1 ≤ a ∧ (1 <= wait_seconds p a u <= 60)%Q ∧ (0 <= wait_seconds p a u)%Q)
  ∧ (∃ k,
       sleeps (openai_get_single_embedding env text embedding_model w).2
         = backoffs (WaitRandomExponential 1 20) 1 k ++ sleeps w
       ∧ ∀ p a, (p, a) ∈ backoffs (WaitRandomExponential 1 20) 1 k →
           1 ≤ a ∧ (1 <= wait_seconds p a u <= 20)%Q ∧ (0 <= wait_seconds p a u)%Q)
  ∧ (∃ k,
       sleeps (palm_get_single_embedding env text embedding_model w).2
         = backoffs (WaitRandomExponential 1 20) 1 k ++ sleeps w
       ∧ ∀ p a, (p, a) ∈ backoffs (WaitRandomExponential 1 20) 1 k →
           1 ≤ a ∧ (1 <= wait_seconds p a u <= 20)%Q ∧ (0 <= wait_seconds p a u)%Q).
Proof.
  intros Hu. repeat split.
  - destruct (retrying_requests_sleeps (id_Future env) (WaitRandomExponential 1 60) _ _
                (get_openai_response_wrapped_calls_once settings env
                   (conversation messages system_message) model)
                (get_openai_response_wrapped_sleepless settings env
                   (conversation messages system_message) model)
                (API_RETRY_ATTEMPTS settings - 1) 1 w) as (k & _ & _ & Hsl).
    exists (k - 1). split.
    + rewrite get_openai_response_chat_trace. unfold get_openai_response, retry.
      by destruct (retrying _ _ _ _ _ _) as [[[]|] w1].
    + intros p a Hin. by apply (backoff_bounds_1_to 60 (k - 1)); [lia | |].
  - destruct (retrying_requests_sleeps (id_Future env) (WaitRandomExponential 1 60) _ _
                (get_palm_response_wrapped_calls_once env prompt palm_model)
                (get_palm_response_wrapped_sleepless env prompt palm_model)
                (API_RETRY_ATTEMPTS settings - 1) 1 w) as (k & _ & _ & Hsl).
    exists (k - 1). split; [exact Hsl|].
    intros p a Hin. by apply (backoff_bounds_1_to 60 (k - 1)); [lia | |].
  - destruct (each_fetch_sleeps env text embedding_model w) as [(k & Hsl) _].
    exists k. split; [exact Hsl|].
    intros p a Hin. by apply (backoff_bounds_1_to 20 k); [lia | |].
  - destruct (each_fetch_sleeps env text embedding_model w) as [_ (k & Hsl)].
    exists k. split; [exact Hsl|].
    intros p a Hin. by apply (backoff_bounds_1_to 20 k); [lia | |].
Qed.

End WaitProperties.

(** C8 at a provider that is down, for the draw 1/2: the completion call
    sleeps after its attempts 1 and 2. *)
Lemma backoff_waits_within_bounds_witness :
  (0 <= 1 # 2 <= 1)%Q
  ∧ ∃ k,
      sleeps
        (get_openai_response_chat sample_settings env_down (Prompt "Sort these topics")
           "gpt-3.5-turbo" default_system_message []).2
        = backoffs (WaitRandomExponential 1 60) 1 k ++ sleeps []
      ∧ ∀ p a, (p, a) ∈ backoffs (WaitRandomExponential 1 60) 1 k →
          1 ≤ a
          ∧ (1 <= wait_seconds p a (1 # 2) <= 60)%Q
          ∧ (0 <= wait_seconds p a (1 # 2))%Q.
Proof.
  assert (Hu : (0 <= 1 # 2 <= 1)%Q) by (split; discriminate).
  split; [exact Hu|].
  exact (proj1 (backoff_waits_within_bounds sample_settings env_down
                  (Prompt "Sort these topics") "gpt-3.5-turbo" default_system_message
                  "Sort these topics" "models/text-bison-001"
                  "a" "text-embedding-ada-002" [] (1 # 2) Hu)).
Defined.

(** The seconds of the sleeps of that call, for the draw 1/2: after attempt
    1 the window is from 1 to 1, after attempt 2 from 1 to 2. *)
Example wait_seconds_of_the_first_attempts :
  wait_seconds (WaitRandomExponential 1 60) 1 (1 # 2) == 1
  ∧ wait_seconds (WaitRandomExponential 1 60) 2 (1 # 2) == 3 # 2
  ∧ wait_seconds (WaitRandomExponential 1 60) 7 (1 # 2) == 61 # 2
  ∧ wait_seconds (WaitRandomExponential 1 20) 7 1 == 20.
Proof. repeat split. Qed.

(** C1 at provider answers of the shapes the two SDKs give.  The rows of
    [get_openai_embeddings] are the embeddings, in input order.  The entries
    of [get_palm_embeddings] are in input order too, but each is the whole
    answer of [palm.generate_embeddings], the dict that holds the embedding
    under ['embedding'], and not the embedding: line 125 does not take the
    embedding out of the answer, as line 103 does. *)
Lemma palm_batch_entries_are_answer_dicts :
  get_openai_embeddings env_sdk_shapes ["a"; "b"; "c"] "text-embedding-ada-002" 4 [2; 0; 1]
    = inr [Vector [0; 0; 0]; Vector [1; 1; 1]; Vector [2; 2; 2]]%Z
  ∧ get_palm_embeddings env_sdk_shapes ["a"; "b"; "c"] "models/embedding-gecko-001" 4
      [2; 0; 1]
    = inr [BoxedDict [("embedding", [0; 0; 0])]; BoxedDict [("embedding", [1; 1; 1])];
           BoxedDict [("embedding", [2; 2; 2])]]%Z
  ∧ get_palm_embeddings env_sdk_shapes ["a"; "b"; "c"] "models/embedding-gecko-001" 4
      [2; 0; 1]
    ≠ inr [Vector [0; 0; 0]; Vector [1; 1; 1]; Vector [2; 2; 2]]%Z.
Proof. split; [reflexivity|]. split; [reflexivity|]. discriminate. Qed.
